(** * nautilus_trader.common.timer: time events, timers and the test timer

    A shallow embedding of [nautilus_trader/common/timer.pyx] and the
    properties of its scheduling core.

    Modelling conventions.
    - A [datetime] is the integer number of microseconds since the epoch
      (UTC) and a [timedelta] an integer number of microseconds: Python's
      arithmetic and comparisons on both are exact at that resolution.  A
      [datetime] lies between [datetime.min] and [datetime.max] (years 1 to
      9999), and [datetime + timedelta] raises [OverflowError] when the sum
      does not.
    - The identifiers a [UUIDFactory] hands out are not the program's to
      choose: a factory carries the sequence the generator will hand it,
      given when the timer is constructed.
    - Methods are state transformers over the object they are called on:
      [M S A] is a computation on a receiver of type [S] that returns,
      raises, or runs out of fuel, and hands back the receiver as the call
      left it (a raise does not roll mutations back).
    - The [while] loop of [TestTimer.advance] is unrolled by a fuel
      argument; [OutOfFuel] is the only outcome that does not correspond
      to a Python outcome. *)

From Stdlib Require Import ZArith QArith String Ascii List Bool Lia.
From Stdlib Require Import DecimalString DecimalZ Sorted.
Import ListNotations.

Local Open Scope string_scope.
Local Open Scope Z_scope.

(* ------------------------------------------------------------------ *)
(** ** Values *)

(** Microseconds since the epoch, UTC. *)
Definition datetime : Type := Z.

(** Microseconds. *)
Definition timedelta : Type := Z.

(** [timedelta.total_seconds()]: the duration in seconds.  Python returns
    the float nearest to this rational, which has the same sign. *)
Definition total_seconds (d : timedelta) : Q := (d # 1000000)%Q.

(** Modelled from the spec: [nautilus_trader.core.uuid.UUID] is not part of
    this module; identifiers are opaque values compared by equality. *)
Definition UUID : Type := nat.

(** A [callable] Python object, by an opaque handle.  The type holds
    callables only. *)
Definition Callback : Type := nat.

(* ------------------------------------------------------------------ *)
(** ** Outcomes and the method monad *)

Inductive exn : Type :=
| TypeError (msg : string)
| ValueError (msg : string)
| NotImplementedError (msg : string)
| OverflowError (msg : string).

Inductive outcome (A : Type) : Type :=
| Returns (a : A)
| Raises (e : exn)
| OutOfFuel.

Arguments Returns {A} a.
Arguments Raises {A} e.
Arguments OutOfFuel {A}.

Definition obind {A B : Type} (c : outcome A) (k : A -> outcome B) : outcome B :=
  match c with
  | Returns a => k a
  | Raises e => Raises e
  | OutOfFuel => OutOfFuel
  end.

Declare Scope outcome_scope.
Delimit Scope outcome_scope with out.
Notation "x <- c ;; k" := (obind c (fun x => k))
  (at level 61, c at next level, right associativity) : outcome_scope.
Notation "c ;; k" := (obind c (fun _ => k))
  (at level 61, right associativity) : outcome_scope.

(** A method called on a receiver of type [S]. *)
Definition M (S A : Type) : Type := S -> outcome A * S.

Definition ret {S A : Type} (a : A) : M S A := fun self => (Returns a, self).

Definition bind {S A B : Type} (c : M S A) (k : A -> M S B) : M S B :=
  fun self =>
    match c self with
    | (Returns a, self') => k a self'
    | (Raises e, self') => (Raises e, self')
    | (OutOfFuel, self') => (OutOfFuel, self')
    end.

(** Read an attribute of the receiver. *)
Definition get {S A : Type} (field : S -> A) : M S A :=
  fun self => (Returns (field self), self).

(** Assign to the receiver. *)
Definition modify {S : Type} (f : S -> S) : M S unit :=
  fun self => (Returns tt, f self).

(** A call that does not touch the receiver: a precondition check, or the
    construction of another object. *)
Definition lift {S A : Type} (c : outcome A) : M S A := fun self => (c, self).

Declare Scope method_scope.
Delimit Scope method_scope with meth.
Notation "x <- c ;; k" := (bind c (fun x => k))
  (at level 61, c at next level, right associativity) : method_scope.
Notation "c ;; k" := (bind c (fun _ => k))
  (at level 61, right associativity) : method_scope.

(* ------------------------------------------------------------------ *)
(** ** The range of dates and of C integers *)

(** [datetime.min], 0001-01-01 00:00:00, and [datetime.max],
    9999-12-31 23:59:59.999999. *)
Definition datetime_min : datetime := -62135596800000000.
Definition datetime_max : datetime := 253402300799999999.

(** The values a [datetime] can take. *)
Definition is_datetime (d : Z) : Prop := datetime_min <= d <= datetime_max.

Definition in_datetime_range (d : Z) : bool :=
  (datetime_min <=? d) && (d <=? datetime_max).

(** [d + delta] on a [datetime] and a [timedelta]. *)
Definition datetime_add (d : datetime) (delta : timedelta)
  : outcome datetime :=
  if in_datetime_range (d + delta) then Returns (d + delta)
  else Raises (OverflowError "date value out of range").

(** The conversion of a Python [int] argument to a parameter declared
    [int] in Cython, a 32-bit C integer. *)
Definition c_int (n : Z) : outcome Z :=
  if (- 2 ^ 31 <=? n) && (n <? 2 ^ 31) then Returns n
  else Raises (OverflowError "value too large to convert to int").

(* ------------------------------------------------------------------ *)
(** ** Preconditions *)

Module Condition.

(** Modelled from the spec: [nautilus_trader.core.correctness.Condition]
    is declared (correctness.pxd) but its body is not part of this
    module.  Each check returns when its predicate holds and raises
    otherwise. *)
Definition true (predicate : bool) (description : string) : outcome unit :=
  if predicate then Returns tt else Raises (ValueError description).

(** Modelled from the spec: rejects [None]. *)
Definition not_none {A : Type} (argument : option A) (param_name : string)
  : outcome A :=
  match argument with
  | Some a => Returns a
  | None => Raises (TypeError param_name)
  end.

(** Modelled from the spec: rejects the empty string. *)
Definition valid_string (argument : string) (param_name : string)
  : outcome unit :=
  if String.eqb argument "" then Raises (ValueError param_name)
  else Returns tt.

(** Modelled from the spec: every value of type [Callback] is callable. *)
Definition callable (argument : Callback) (param_name : string)
  : outcome unit :=
  Returns tt.

(** Modelled from the spec: rejects a value that is not strictly
    positive. *)
Definition positive (value : Q) (param_name : string) : outcome unit :=
  if Qle_bool value 0 then Raises (ValueError param_name) else Returns tt.

(** Modelled from the spec: rejects a negative integer. *)
Definition not_negative_int (value : Z) (param_name : string)
  : outcome unit :=
  if value <? 0 then Raises (ValueError param_name) else Returns tt.

End Condition.

(* ------------------------------------------------------------------ *)
(** ** TimeEvent *)

Module TimeEvent.

(** [id] and [timestamp] are the attributes of the base class [Event]. *)
Record t : Type := mk {
  name : string;
  id : UUID;
  timestamp : datetime
}.

Definition __init__ (name : string) (event_id : UUID)
    (event_timestamp : datetime) : outcome t :=
  (Condition.valid_string name "name" ;;
   Returns (mk name event_id event_timestamp))%out.

Definition __eq__ (self other : t) : bool :=
  String.eqb (name self) (name other).

Definition __ne__ (self other : t) : bool :=
  negb (String.eqb (name self) (name other)).

End TimeEvent.

(* ------------------------------------------------------------------ *)
(** ** TimeEventHandler *)

Module TimeEventHandler.

Record t : Type := mk {
  event : TimeEvent.t;
  _handler : Callback
}.

Definition __init__ (event : TimeEvent.t) (handler : Callback) : t :=
  mk event handler.

Definition __eq__ (self other : t) : bool :=
  TimeEvent.timestamp (event self) =? TimeEvent.timestamp (event other).

Definition __ne__ (self other : t) : bool :=
  negb (TimeEvent.timestamp (event self) =? TimeEvent.timestamp (event other)).

Definition __lt__ (self other : t) : bool :=
  TimeEvent.timestamp (event self) <? TimeEvent.timestamp (event other).

Definition __le__ (self other : t) : bool :=
  TimeEvent.timestamp (event self) <=? TimeEvent.timestamp (event other).

Definition __gt__ (self other : t) : bool :=
  TimeEvent.timestamp (event self) >? TimeEvent.timestamp (event other).

Definition __ge__ (self other : t) : bool :=
  TimeEvent.timestamp (event self) >=? TimeEvent.timestamp (event other).

End TimeEventHandler.

(* ------------------------------------------------------------------ *)
(** ** Timer *)

Module Timer.

Record t : Type := mk {
  name : string;
  callback : Callback;
  interval : timedelta;
  start_time : datetime;
  next_time : datetime;
  stop_time : option datetime;
  expired : bool
}.

Definition set_next_time (v : datetime) (self : t) : t :=
  mk (name self) (callback self) (interval self) (start_time self)
     v (stop_time self) (expired self).

Definition set_expired (v : bool) (self : t) : t :=
  mk (name self) (callback self) (interval self) (start_time self)
     (next_time self) (stop_time self) v.

Definition __init__ (name : string) (callback : Callback)
    (interval : timedelta) (start_time : datetime)
    (stop_time : option datetime) : outcome t :=
  (Condition.valid_string name "name" ;;
   Condition.callable callback "function" ;;
   Condition.positive (total_seconds interval) "interval" ;;
   match stop_time with
   | Some stop =>
       first <- datetime_add start_time interval ;;
       Condition.true (first <=? stop) "start_time + interval <= stop_time"
   | None => Returns tt
   end ;;
   next_time <- datetime_add start_time interval ;;
   Returns (mk name callback interval start_time next_time stop_time
               false))%out.

Definition __eq__ (self other : t) : bool :=
  String.eqb (name self) (name other).

Definition __ne__ (self other : t) : bool :=
  negb (String.eqb (name self) (name other)).

(** [hash] is Python's built-in hash on [str]. *)
Definition __hash__ (hash : string -> Z) (self : t) : Z :=
  hash (name self).

Definition pop_event (event_id : option UUID) : M t TimeEvent.t :=
  (event_id <- lift (Condition.not_none event_id "event_id") ;;
   name <- get name ;;
   next_time <- get next_time ;;
   lift (TimeEvent.__init__ name event_id next_time))%meth.

Definition iterate_next_time (now : option datetime) : M t unit :=
  (now <- lift (Condition.not_none now "now") ;;
   next_time <- get next_time ;;
   interval <- get interval ;;
   next_time <- lift (datetime_add next_time interval) ;;
   modify (set_next_time next_time) ;;
   stop_time <- get stop_time ;;
   match stop_time with
   | Some stop => if now >=? stop then modify (set_expired true) else ret tt
   | None => ret tt
   end)%meth.

Definition cancel : M t unit :=
  lift (Raises (NotImplementedError
                  "method must be implemented in the subclass")).

End Timer.

(* ------------------------------------------------------------------ *)
(** ** The identifier source *)

Module UUIDFactory.

(** Modelled from the spec: the generator of unique identifiers is an
    external collaborator; its contract is that it never repeats a value,
    in this factory or in another.  A factory is given by the identifiers
    the process's generator will hand it, in order ([ids]), and by how many
    of them it has handed out ([count]); which identifiers those are is
    not the factory's to choose. *)
Record t : Type := mk {
  ids : nat -> UUID;
  count : nat
}.

Definition __init__ (ids : nat -> UUID) : t := mk ids 0.

Definition generate : M t UUID :=
  fun self => (Returns (ids self (count self)), mk (ids self) (S (count self))).

End UUIDFactory.

(* ------------------------------------------------------------------ *)
(** ** TestTimer *)

Module TestTimer.

(** A [TestTimer] is a [Timer] with an identifier source. *)
Record t : Type := mk {
  base : Timer.t;
  _uuid_factory : UUIDFactory.t
}.

(** A method inherited from [Timer]. *)
Definition super {A : Type} (m : M Timer.t A) : M t A :=
  fun self =>
    let (r, b) := m (base self) in (r, mk b (_uuid_factory self)).

(** A method of the attribute [_uuid_factory]. *)
Definition on_uuid_factory {A : Type} (m : M UUIDFactory.t A) : M t A :=
  fun self =>
    let (r, f) := m (_uuid_factory self) in (r, mk (base self) f).

(** [uuids] are the identifiers the generator will hand the timer's
    [UUIDFactory()]. *)
Definition __init__ (name : string) (callback : Callback)
    (interval : timedelta) (start_time : datetime)
    (stop_time : option datetime) (uuids : nat -> UUID) : outcome t :=
  (Condition.valid_string name "name" ;;
   b <- Timer.__init__ name callback interval start_time stop_time ;;
   Returns (mk b (UUIDFactory.__init__ uuids)))%out.

Definition expired (self : t) : bool := Timer.expired (base self).
Definition next_time (self : t) : datetime := Timer.next_time (base self).

(** The body of the [while] loop of [advance]. *)
Definition advance_body : M t TimeEvent.t :=
  (event_id <- on_uuid_factory UUIDFactory.generate ;;
   event <- super (Timer.pop_event (Some event_id)) ;;
   now <- get next_time ;;
   super (Timer.iterate_next_time (Some now)) ;;
   ret event)%meth.

(** [while not self.expired and to_time >= self.next_time: ...] *)
Fixpoint advance_loop (fuel : nat) (to_time : datetime)
    (events : list TimeEvent.t) (self : t)
  : outcome (list TimeEvent.t) * t :=
  if negb (expired self) && (to_time >=? next_time self) then
    match fuel with
    | O => (OutOfFuel, self)
    | S fuel' =>
        match advance_body self with
        | (Returns event, self') =>
            advance_loop fuel' to_time (events ++ [event]) self'
        | (Raises e, self') => (Raises e, self')
        | (OutOfFuel, self') => (OutOfFuel, self')
        end
    end
  else (Returns events, self).

Definition advance (fuel : nat) (to_time : option datetime)
  : M t (list TimeEvent.t) :=
  (to_time <- lift (Condition.not_none to_time "to_time") ;;
   advance_loop fuel to_time [])%meth.

Definition pop_next_event : M t TimeEvent.t :=
  (event_id <- on_uuid_factory UUIDFactory.generate ;;
   event <- super (Timer.pop_event (Some event_id)) ;;
   now <- get next_time ;;
   super (Timer.iterate_next_time (Some now)) ;;
   ret event)%meth.

Definition cancel : M t unit :=
  modify (fun self => mk (Timer.set_expired true (base self))
                         (_uuid_factory self)).

End TestTimer.

(* ------------------------------------------------------------------ *)
(** ** Calls, traces and reachable timers *)

(** The public methods of a [TestTimer]. *)
Inductive call : Type :=
| PopEvent (event_id : option UUID)
| IterateNextTime (now : option datetime)
| Advance (to_time : option datetime)
| PopNextEvent
| Cancel.

(** What a call hands back. *)
Inductive reply : Type :=
| Event (event : TimeEvent.t)
| Events (events : list TimeEvent.t)
| NoValue.

Definition invoke (fuel : nat) (c : call) : M TestTimer.t reply :=
  match c with
  | PopEvent event_id =>
      (e <- TestTimer.super (Timer.pop_event event_id) ;; ret (Event e))%meth
  | IterateNextTime now =>
      (TestTimer.super (Timer.iterate_next_time now) ;; ret NoValue)%meth
  | Advance to_time =>
      (l <- TestTimer.advance fuel to_time ;; ret (Events l))%meth
  | PopNextEvent =>
      (e <- TestTimer.pop_next_event ;; ret (Event e))%meth
  | Cancel =>
      (TestTimer.cancel ;; ret NoValue)%meth
  end.

(** A sequence of calls on one timer: what each call handed back, and the
    timer after the last one. *)
Fixpoint run (fuel : nat) (calls : list call) (self : TestTimer.t)
  : list (call * outcome reply) * TestTimer.t :=
  match calls with
  | [] => ([], self)
  | c :: calls' =>
      let (r, self') := invoke fuel c self in
      let (trace, self'') := run fuel calls' self' in
      ((c, r) :: trace, self'')
  end.

(** The timers a program can hold: a constructed one, and whatever a call
    leaves of a reachable one. *)
Inductive reachable : TestTimer.t -> Prop :=
| reachable_init name callback interval start_time stop_time uuids self :
    TestTimer.__init__ name callback interval start_time stop_time uuids
      = Returns self ->
    reachable self
| reachable_call fuel c self :
    reachable self -> reachable (snd (invoke fuel c self)).

(* ------------------------------------------------------------------ *)
(** ** Specification vocabulary *)

(** What [Timer.__init__] checks. *)
Definition accepted (name : string) (interval : timedelta)
    (start_time : datetime) (stop_time : option datetime) : Prop :=
  name <> "" /\ 0 < interval /\
  (forall stop, stop_time = Some stop -> start_time + interval <= stop).

(** The class invariant: the constructor's checks hold of the fields. *)
Definition valid (self : Timer.t) : Prop :=
  accepted (Timer.name self) (Timer.interval self) (Timer.start_time self)
           (Timer.stop_time self).

(** [next_time] is on the grid [start_time + k * interval], [k >= 1]. *)
Definition on_grid (self : Timer.t) : Prop :=
  exists k : Z,
    1 <= k /\
    Timer.next_time self = Timer.start_time self + k * Timer.interval self.

(** What every call keeps: the constructor's checks, the grid, and
    [next_time] not before a given time. *)
Definition kept (floor : datetime) (self : TestTimer.t) : Prop :=
  valid (TestTimer.base self) /\ on_grid (TestTimer.base self) /\
  floor <= TestTimer.next_time self.

(** [self.stop_time and now >= self.stop_time] *)
Definition stop_reached (self : Timer.t) (now : datetime) : bool :=
  match Timer.stop_time self with
  | Some stop => now >=? stop
  | None => false
  end.

(** The identifier the timer's factory hands out next, and the timer once
    it has. *)
Definition next_id (self : TestTimer.t) : UUID :=
  UUIDFactory.ids (TestTimer._uuid_factory self)
                  (UUIDFactory.count (TestTimer._uuid_factory self)).

Definition drawn (self : TestTimer.t) : TestTimer.t :=
  TestTimer.mk (TestTimer.base self)
    (UUIDFactory.mk (UUIDFactory.ids (TestTimer._uuid_factory self))
                    (S (UUIDFactory.count (TestTimer._uuid_factory self)))).

(** The next fire point but one is a [datetime]: [next_time += interval]
    does not raise. *)
Definition can_move (b : Timer.t) : bool :=
  in_datetime_range (Timer.next_time b + Timer.interval b).

(** The timer [iterate_next_time(next_time)] leaves, when it returns. *)
Definition moved (b : Timer.t) : Timer.t :=
  Timer.mk (Timer.name b) (Timer.callback b) (Timer.interval b)
           (Timer.start_time b)
           (Timer.next_time b + Timer.interval b)
           (Timer.stop_time b)
           (if stop_reached b (Timer.next_time b) then true
            else Timer.expired b).

(** The net effect of one pass through the loop body of [advance] on a
    timer whose name is valid and that can move: the event it appends and
    the timer it leaves. *)
Definition fire (self : TestTimer.t) : TimeEvent.t * TestTimer.t :=
  let b := TestTimer.base self in
  (TimeEvent.mk (Timer.name b) (next_id self) (Timer.next_time b),
   TestTimer.mk (moved b) (TestTimer._uuid_factory (drawn self))).

(** The big-step reading of the [while] loop of [advance]: from [self],
    the loop appends [events] and leaves the timer [self']. *)
Inductive advances (to_time : datetime)
  : TestTimer.t -> list TimeEvent.t -> TestTimer.t -> Prop :=
| advances_done self :
    TestTimer.expired self = true \/ to_time < TestTimer.next_time self ->
    advances to_time self [] self
| advances_fire self events self' :
    TestTimer.expired self = false ->
    TestTimer.next_time self <= to_time ->
    can_move (TestTimer.base self) = true ->
    advances to_time (snd (fire self)) events self' ->
    advances to_time self (fst (fire self) :: events) self'.

(** The other way the loop ends: from [self], it raises [OverflowError]
    at [next_time += interval], and leaves the timer [self']. *)
Inductive overflows (to_time : datetime)
  : TestTimer.t -> TestTimer.t -> Prop :=
| overflows_here self :
    TestTimer.expired self = false ->
    TestTimer.next_time self <= to_time ->
    can_move (TestTimer.base self) = false ->
    overflows to_time self (drawn self)
| overflows_later self self' :
    TestTimer.expired self = false ->
    TestTimer.next_time self <= to_time ->
    can_move (TestTimer.base self) = true ->
    overflows to_time (snd (fire self)) self' ->
    overflows to_time self self'.

(** What either ending leaves of the [Timer] fields: the loop moves the
    timer on until it is expired, ahead of [to_time], or unable to move. *)
Inductive settles (to_time : datetime) : Timer.t -> Timer.t -> Prop :=
| settles_here b :
    Timer.expired b = true \/ to_time < Timer.next_time b \/
    can_move b = false ->
    settles to_time b b
| settles_move b b' :
    Timer.expired b = false ->
    Timer.next_time b <= to_time ->
    can_move b = true ->
    settles to_time (moved b) b' ->
    settles to_time b b'.

(** The first [n] fire points from [next]: [next], [next + interval], ... *)
Fixpoint fire_points (next : datetime) (interval : timedelta) (n : nat)
  : list datetime :=
  match n with
  | O => []
  | S n' => next :: fire_points (next + interval) interval n'
  end.

(** The [i]-th fire point ahead of a timer, counting from its [next_time]. *)
Definition fire_point (self : TestTimer.t) (i : nat) : datetime :=
  TestTimer.next_time self + Z.of_nat i * Timer.interval (TestTimer.base self).

(** The fire point is not after the timer's stop time, if it has one. *)
Definition within_stop (self : TestTimer.t) (at_time : datetime) : Prop :=
  forall stop,
    Timer.stop_time (TestTimer.base self) = Some stop -> at_time <= stop.

(** One second and its fractions, in microseconds. *)
Definition seconds (n : Z) : timedelta := n * 1000000.
Definition milliseconds (n : Z) : timedelta := n * 1000.

(** The events a call to [pop_next_event] yields: the one it returns, if
    it returns. *)
Definition yielded (r : outcome TimeEvent.t) : list TimeEvent.t :=
  match r with
  | Returns e => [e]
  | Raises _ => []
  | OutOfFuel => []
  end.

(** A call that does not end in an exception. *)
Definition succeeds {A : Type} (r : outcome A) : Prop :=
  exists a, r = Returns a.

(** The sentence "one event for each fire point not after [to_time]", read
    on its own: whatever a call to [advance] returns has an event for every
    such fire point. *)
Definition every_due_point_fires (self : TestTimer.t) (to_time : datetime)
  : Prop :=
  forall fuel events self',
    TestTimer.advance fuel (Some to_time) self = (Returns events, self') ->
    forall i : nat, fire_point self i <= to_time -> (i < length events)%nat.

(** The sentence "[pop_next_event] yields an empty result", read on its
    own. *)
Definition pop_next_event_yields_nothing (self : TestTimer.t) : Prop :=
  yielded (fst (TestTimer.pop_next_event self)) = [].

(** The timer [TestTimer("TEST_TIMER", callback, 1s, start_time=0,
    stop_time)] as the constructor leaves it. *)
Definition fresh_timer (stop_time : option datetime) : TestTimer.t :=
  TestTimer.mk
    (Timer.mk "TEST_TIMER" 0%nat (seconds 1) 0 (seconds 1) stop_time false)
    (UUIDFactory.__init__ (fun n => n)).

(** 9999-12-30 00:00:00 and 9999-12-31 00:00:00, the last two days a
    [datetime] can name, and the length of a day. *)
Definition last_day_but_one : datetime := 253402128000000000.
Definition last_day : datetime := 253402214400000000.
Definition one_day : timedelta := seconds 86400.

(** The timer [Timer("TEST_TIMER", callback, 1 day, start_time=9999-12-30)]
    as the constructor leaves it: its [next_time] is 9999-12-31. *)
Definition late_timer : Timer.t :=
  Timer.mk "TEST_TIMER" 0%nat one_day last_day_but_one last_day None false.

(** The same as a [TestTimer]. *)
Definition late_test_timer : TestTimer.t :=
  TestTimer.mk late_timer (UUIDFactory.__init__ (fun n => n)).

(** The sentence "any construction passing these checks succeeds", read on
    its own. *)
Definition passing_the_checks_succeeds (name : string) (callback : Callback)
    (interval : timedelta) (start_time : datetime)
    (stop_time : option datetime) : Prop :=
  accepted name interval start_time stop_time ->
  exists self,
    Timer.__init__ name callback interval start_time stop_time
    = Returns self.

(** The sentence "each [iterate_next_time] adds exactly one interval", read
    on its own. *)
Definition iterate_adds_one_interval (self : Timer.t) (now : datetime)
  : Prop :=
  Timer.next_time (snd (Timer.iterate_next_time (Some now) self))
  = Timer.next_time self + Timer.interval self.

(** The same timer after [cancel()]. *)
Definition cancelled_timer : TestTimer.t :=
  snd (TestTimer.cancel (fresh_timer None)).

(* ------------------------------------------------------------------ *)
(** ** nautilus_trader.core.functions: [pad_string] *)

(** Python's [str]: a sequence of characters; [len] is [String.length] and
    [+] is [String.append]. *)

(** [n] copies of [s], one after the other. *)
Fixpoint str_repeat (n : nat) (s : string) : string :=
  match n with
  | O => ""
  | S n' => s ++ str_repeat n' s
  end.

(** Python's [n * s] for an [int] and a [str]: the empty string when
    [n <= 0]. *)
Definition str_mul (n : Z) (s : string) : string :=
  str_repeat (Z.to_nat n) s.

(** [pad_string(string, final_length, pad)]; a caller that leaves [pad] out
    passes [" "].  [final_length] is declared a C [int]: the call converts
    the argument before the body runs. *)
Definition pad_string (str : option string) (final_length : Z)
    (pad : option string) : outcome string :=
  (final_length <- c_int final_length ;;
   str <- Condition.not_none str "string" ;;
   Condition.not_negative_int final_length "length" ;;
   pad <- Condition.not_none pad "pad" ;;
   Returns (str_mul (final_length - Z.of_nat (String.length str)) pad
            ++ str))%out.

(** Every character of [s] is [c]. *)
Fixpoint all_chars (c : ascii) (s : string) : Prop :=
  match s with
  | EmptyString => True
  | String a s' => a = c /\ all_chars c s'
  end.

(* ------------------------------------------------------------------ *)
(** ** nautilus_trader.adapters.ccxt.exchanges.bitmex: the order request *)

(** A value stored in a request: the code stores strings and the integer
    [0]. *)
Inductive pyvalue : Type :=
| PyStr (s : string)
| PyInt (n : Z).

(** A Python [dict] with [str] keys: the items in insertion order, each key
    once. *)
Definition dict : Type := list (string * pyvalue).

(** [d[key]], if the key is there. *)
Fixpoint dict_get (key : string) (d : dict) : option pyvalue :=
  match d with
  | [] => None
  | (k, v) :: d' => if String.eqb k key then Some v else dict_get key d'
  end.

(** [d[key] = value]: in place when the key is there, at the end
    otherwise. *)
Fixpoint dict_set (key : string) (value : pyvalue) (d : dict) : dict :=
  match d with
  | [] => [(key, value)]
  | (k, v) :: d' =>
      if String.eqb k key then (k, value) :: d'
      else (k, v) :: dict_set key value d'
  end.

Definition dict_keys (d : dict) : list string := map fst d.

Module OrderType.

(** Modelled from the spec: the enumeration is not part of src; these are
    the members the request builder names, and [UNDEFINED] stands for any
    other member. *)
Inductive t : Type := UNDEFINED | MARKET | LIMIT | STOP_MARKET.

End OrderType.

Module TimeInForce.

(** Modelled from the spec: the enumeration is not part of src; these are
    the members the request builder names, and [UNDEFINED] stands for any
    other member. *)
Inductive t : Type := UNDEFINED | DAY | GTC | IOC | FOK | GTD.

End TimeInForce.

Module Order.

(** Modelled from the spec: [nautilus_trader.model.order.Order] is not part
    of src; these are the attributes the request builder reads.  [cl_ord_id]
    is [order.cl_ord_id.value] and [price] is the text [str(order.price)]. *)
Record t : Type := mk {
  cl_ord_id : string;
  type : OrderType.t;
  time_in_force : TimeInForce.t;
  is_post_only : bool;
  is_hidden : bool;
  is_reduce_only : bool;
  price : string
}.

End Order.

Module BitmexOrderRequestBuilder.

(** The branch of [build] for a [LIMIT] order, from [params["type"] =
    "Limit"] to [params["execInst"] = exec_inst]. *)
Definition build_limit (order : Order.t) (params : dict) : dict :=
  let exec_inst : option string := None in
  let params := dict_set "type" (PyStr "Limit") params in
  let '(exec_inst, params) :=
    if Order.is_post_only order
    then (Some "ParticipateDoNotInitiate", params)
    else if Order.is_hidden order
    then (exec_inst, dict_set "displayQty" (PyInt 0) params)
    else (exec_inst, params) in
  let exec_inst :=
    if Order.is_reduce_only order then
      match exec_inst with
      | Some e => Some (e ++ ",ReduceOnly")
      | None => Some "ReduceOnly"
      end
    else exec_inst in
  match exec_inst with
  | Some e => dict_set "execInst" (PyStr e) params
  | None => params
  end.

Definition build (order : option Order.t) : outcome dict :=
  (order <- Condition.not_none order "order" ;;
   match Order.time_in_force order with
   | TimeInForce.GTD =>
       Raises (ValueError "GTD not supported in this version.")
   | _ =>
       let params := [("clOrdID", PyStr (Order.cl_ord_id order))] in
       let params :=
         match Order.type order with
         | OrderType.MARKET => dict_set "type" (PyStr "Market") params
         | OrderType.LIMIT => build_limit order params
         | OrderType.STOP_MARKET =>
             let params := dict_set "type" (PyStr "StopMarket") params in
             let params :=
               dict_set "stopPx" (PyStr (Order.price order)) params in
             if Order.is_reduce_only order
             then dict_set "execInst" (PyStr "ReduceOnly") params
             else params
         | OrderType.UNDEFINED => params
         end in
       let params :=
         match Order.time_in_force order with
         | TimeInForce.DAY => dict_set "timeInForce" (PyStr "Day") params
         | TimeInForce.GTC =>
             dict_set "timeInForce" (PyStr "GoodTillCancel") params
         | TimeInForce.IOC =>
             dict_set "timeInForce" (PyStr "ImmediateOrCancel") params
         | TimeInForce.FOK =>
             dict_set "timeInForce" (PyStr "FillOrKill") params
         | _ => params
         end in
       Returns params
   end)%out.

(** [build_py] hands the order to [build]. *)
Definition build_py (order : option Order.t) : outcome dict := build order.

End BitmexOrderRequestBuilder.

(** What [build] returns, as a dictionary; the empty one when it raises. *)
Definition request_of (order : Order.t) : dict :=
  match BitmexOrderRequestBuilder.build (Some order) with
  | Returns params => params
  | _ => []
  end.

(* ------------------------------------------------------------------ *)
(** ** nautilus_trader.adapters.ccxt.data: time frames and trade sides *)

Module BarAggregation.

(** Modelled from the spec: the enumeration is not part of src; these are
    the members [_make_timeframe] names, and [OTHER] stands for any other
    member. *)
Inductive t : Type := MINUTE | HOUR | DAY | OTHER.

End BarAggregation.

Module BarSpecification.

(** Modelled from the spec: [nautilus_trader.model.bar.BarSpecification] is
    not part of src; these are the attributes [_make_timeframe] reads. *)
Record t : Type := mk {
  step : Z;
  aggregation : BarAggregation.t
}.

End BarSpecification.

Module OrderSide.

(** Modelled from the spec: the enumeration is not part of src; these are
    the members [_on_trade_tick] names. *)
Inductive t : Type := BUY | SELL.

End OrderSide.

(** Python's [str] on an [int]: the decimal digits, after ["-"] for a
    negative number. *)
Definition str_of_int (n : Z) : string :=
  NilEmpty.string_of_int (Z.to_int n).

Module CCXTDataClient.

(** [_make_timeframe(bar_spec)]; [None] for an aggregation the exchange
    has no time frame for. *)
Definition _make_timeframe (bar_spec : BarSpecification.t) : option string :=
  let timeframe := str_of_int (BarSpecification.step bar_spec) in
  match BarSpecification.aggregation bar_spec with
  | BarAggregation.MINUTE => Some (timeframe ++ "m")
  | BarAggregation.HOUR => Some (timeframe ++ "h")
  | BarAggregation.DAY => Some (timeframe ++ "d")
  | BarAggregation.OTHER => None
  end.

(** The side [_on_trade_tick] hands to [TradeTick], from the texts
    [order_side] and [liquidity_side] of the trade (the first three
    statements of the method).  [str_eq_enum] is Python's [==] between the
    [str] [order_side] and the enumeration member [OrderSide.SELL]. *)
Definition _on_trade_tick_side (str_eq_enum : string -> OrderSide.t -> bool)
    (order_side liquidity_side : string) : OrderSide.t :=
  let side :=
    if String.eqb order_side "buy" then OrderSide.BUY else OrderSide.SELL in
  if String.eqb liquidity_side "maker"
  then (if str_eq_enum order_side OrderSide.SELL
        then OrderSide.BUY else OrderSide.BUY)
  else side.

(** The side [_parse_trade_tick] hands to [TradeTick], from [trade["side"]]. *)
Definition _parse_trade_tick_side (side : string) : OrderSide.t :=
  if String.eqb side "buy" then OrderSide.BUY else OrderSide.SELL.

End CCXTDataClient.

(* ------------------------------------------------------------------ *)
(** ** The body of the loop *)

Lemma valid_string_nonempty (s p : string) :
  s <> "" -> Condition.valid_string s p = Returns tt.
Proof.
  intros Hs. unfold Condition.valid_string.
  destruct (String.eqb_spec s ""); [contradiction | reflexivity].
Qed.

Lemma valid_string_empty (p : string) :
  Condition.valid_string "" p = Raises (ValueError p).
Proof. reflexivity. Qed.

Lemma valid_string_returns (s p : string) (u : unit) :
  Condition.valid_string s p = Returns u -> s <> "".
Proof.
  unfold Condition.valid_string.
  destruct (String.eqb_spec s ""); [discriminate | auto].
Qed.

Lemma positive_total_seconds (d : timedelta) (p : string) :
  Condition.positive (total_seconds d) p
  = if 0 <? d then Returns tt else Raises (ValueError p).
Proof.
  unfold Condition.positive, total_seconds, Qle_bool. simpl.
  rewrite Z.mul_1_r.
  destruct (Z.ltb_spec 0 d), (Z.leb_spec d 0); try reflexivity; lia.
Qed.

Lemma in_datetime_range_true (d : Z) :
  in_datetime_range d = true <-> is_datetime d.
Proof.
  unfold in_datetime_range, is_datetime.
  rewrite andb_true_iff, !Z.leb_le. reflexivity.
Qed.

Lemma in_datetime_range_false (d : Z) :
  in_datetime_range d = false <-> ~ is_datetime d.
Proof.
  rewrite <- in_datetime_range_true.
  destruct (in_datetime_range d); split; congruence.
Qed.

Lemma datetime_add_in (d : datetime) (delta : timedelta) :
  in_datetime_range (d + delta) = true ->
  datetime_add d delta = Returns (d + delta).
Proof. intros H. unfold datetime_add. rewrite H. reflexivity. Qed.

Lemma datetime_add_out (d : datetime) (delta : timedelta) :
  in_datetime_range (d + delta) = false ->
  datetime_add d delta = Raises (OverflowError "date value out of range").
Proof. intros H. unfold datetime_add. rewrite H. reflexivity. Qed.

Lemma pop_event_valid (self : Timer.t) (event_id : UUID) :
  Timer.name self <> "" ->
  Timer.pop_event (Some event_id) self
  = (Returns (TimeEvent.mk (Timer.name self) event_id (Timer.next_time self)),
     self).
Proof.
  intros Hn.
  unfold Timer.pop_event, bind, lift, get, TimeEvent.__init__. simpl.
  rewrite (valid_string_nonempty _ _ Hn). reflexivity.
Qed.

(** [iterate_next_time] on a timer that can move. *)
Lemma iterate_next_time_moves (self : Timer.t) (now : datetime) :
  can_move self = true ->
  Timer.iterate_next_time (Some now) self
  = (Returns tt,
     Timer.mk (Timer.name self) (Timer.callback self) (Timer.interval self)
              (Timer.start_time self)
              (Timer.next_time self + Timer.interval self)
              (Timer.stop_time self)
              (if stop_reached self now then true else Timer.expired self)).
Proof.
  unfold can_move. intros Hmove.
  destruct self as [n c i s x [stop|] e];
    unfold Timer.iterate_next_time, stop_reached, bind, lift, get, modify, ret;
    cbn [Condition.not_none Timer.next_time Timer.interval Timer.stop_time]
      in *;
    rewrite (datetime_add_in _ _ Hmove); cbn.
  - destruct (now >=? stop); reflexivity.
  - reflexivity.
Qed.

(** [iterate_next_time] on a timer that cannot: the addition raises before
    anything is assigned. *)
Lemma iterate_next_time_overflows (self : Timer.t) (now : datetime) :
  can_move self = false ->
  Timer.iterate_next_time (Some now) self
  = (Raises (OverflowError "date value out of range"), self).
Proof.
  unfold can_move. intros Hmove.
  unfold Timer.iterate_next_time, bind, lift, get.
  cbn [Condition.not_none]. rewrite (datetime_add_out _ _ Hmove).
  reflexivity.
Qed.

Lemma iterate_next_time_moved (self : Timer.t) :
  can_move self = true ->
  Timer.iterate_next_time (Some (Timer.next_time self)) self
  = (Returns tt, moved self).
Proof. intros H. rewrite (iterate_next_time_moves _ _ H). reflexivity. Qed.

Lemma advance_body_fire (self : TestTimer.t) :
  Timer.name (TestTimer.base self) <> "" ->
  can_move (TestTimer.base self) = true ->
  TestTimer.advance_body self = (Returns (fst (fire self)), snd (fire self)).
Proof.
  intros Hn Hmove. destruct self as [b f]. cbn [TestTimer.base] in Hn, Hmove.
  cbv [TestTimer.advance_body bind TestTimer.on_uuid_factory TestTimer.super
       UUIDFactory.generate TestTimer.base TestTimer._uuid_factory].
  rewrite (pop_event_valid b _ Hn).
  cbv [get TestTimer.next_time TestTimer.base TestTimer._uuid_factory].
  rewrite (iterate_next_time_moved b Hmove). reflexivity.
Qed.

Lemma advance_body_overflows (self : TestTimer.t) :
  Timer.name (TestTimer.base self) <> "" ->
  can_move (TestTimer.base self) = false ->
  TestTimer.advance_body self
  = (Raises (OverflowError "date value out of range"), drawn self).
Proof.
  intros Hn Hmove. destruct self as [b f]. cbn [TestTimer.base] in Hn, Hmove.
  cbv [TestTimer.advance_body bind TestTimer.on_uuid_factory TestTimer.super
       UUIDFactory.generate TestTimer.base TestTimer._uuid_factory].
  rewrite (pop_event_valid b _ Hn).
  cbv [get TestTimer.next_time TestTimer.base TestTimer._uuid_factory].
  rewrite (iterate_next_time_overflows b _ Hmove). reflexivity.
Qed.

Lemma pop_next_event_fire (self : TestTimer.t) :
  Timer.name (TestTimer.base self) <> "" ->
  can_move (TestTimer.base self) = true ->
  TestTimer.pop_next_event self
  = (Returns (fst (fire self)), snd (fire self)).
Proof. exact (advance_body_fire self). Qed.

(* ------------------------------------------------------------------ *)
(** ** The loop of [advance] *)

Lemma loop_guard_false (to_time : datetime) (self : TestTimer.t) :
  TestTimer.expired self = true \/ to_time < TestTimer.next_time self ->
  negb (TestTimer.expired self) && (to_time >=? TestTimer.next_time self)
  = false.
Proof.
  intros [He | Hlt].
  - rewrite He. reflexivity.
  - rewrite Z.geb_leb. apply andb_false_iff. right. apply Z.leb_gt. exact Hlt.
Qed.

Lemma loop_guard_true (to_time : datetime) (self : TestTimer.t) :
  TestTimer.expired self = false -> TestTimer.next_time self <= to_time ->
  negb (TestTimer.expired self) && (to_time >=? TestTimer.next_time self)
  = true.
Proof.
  intros He Hle. rewrite He, Z.geb_leb. simpl. apply Z.leb_le. exact Hle.
Qed.

Lemma loop_guard_cases (to_time : datetime) (self : TestTimer.t) :
  (negb (TestTimer.expired self) && (to_time >=? TestTimer.next_time self)
   = true /\
   TestTimer.expired self = false /\ TestTimer.next_time self <= to_time) \/
  (negb (TestTimer.expired self) && (to_time >=? TestTimer.next_time self)
   = false /\
   (TestTimer.expired self = true \/ to_time < TestTimer.next_time self)).
Proof.
  destruct (TestTimer.expired self) eqn:He.
  - right. split; [reflexivity | left; reflexivity].
  - destruct (Z_lt_le_dec to_time (TestTimer.next_time self)) as [Hlt | Hle].
    + right. split; [|right; exact Hlt].
      rewrite Z.geb_leb. cbn. apply Z.leb_gt. exact Hlt.
    + left. split; [|split; [reflexivity | exact Hle]].
      rewrite Z.geb_leb. cbn. apply Z.leb_le. exact Hle.
Qed.

Lemma fire_base (self : TestTimer.t) :
  TestTimer.base (snd (fire self)) = moved (TestTimer.base self).
Proof. reflexivity. Qed.

Lemma fire_name (self : TestTimer.t) :
  Timer.name (TestTimer.base (snd (fire self)))
  = Timer.name (TestTimer.base self).
Proof. reflexivity. Qed.

Lemma fire_next_time (self : TestTimer.t) :
  TestTimer.next_time (snd (fire self))
  = TestTimer.next_time self + Timer.interval (TestTimer.base self).
Proof. reflexivity. Qed.

Lemma fire_expired (self : TestTimer.t) :
  TestTimer.expired (snd (fire self))
  = if stop_reached (TestTimer.base self) (TestTimer.next_time self)
    then true else TestTimer.expired self.
Proof. reflexivity. Qed.

Lemma fire_stop_time (self : TestTimer.t) :
  Timer.stop_time (TestTimer.base (snd (fire self)))
  = Timer.stop_time (TestTimer.base self).
Proof. reflexivity. Qed.

Lemma fire_interval (self : TestTimer.t) :
  Timer.interval (TestTimer.base (snd (fire self)))
  = Timer.interval (TestTimer.base self).
Proof. reflexivity. Qed.

Lemma fire_point_succ (self : TestTimer.t) (i : nat) :
  fire_point self (S i) = fire_point (snd (fire self)) i.
Proof.
  unfold fire_point. rewrite fire_next_time, fire_interval. lia.
Qed.

(** The function agrees with the big-step reading, given enough fuel. *)
Lemma advances_run (to_time : datetime) (self self' : TestTimer.t)
    (events : list TimeEvent.t) :
  advances to_time self events self' ->
  Timer.name (TestTimer.base self) <> "" ->
  forall (fuel : nat) (acc : list TimeEvent.t),
    (length events <= fuel)%nat ->
    TestTimer.advance_loop fuel to_time acc self
    = (Returns (acc ++ events)%list, self').
Proof.
  induction 1 as [self Hexit | self events self' He Hle Hmove Hrest IH];
    intros Hname fuel acc Hfuel.
  - rewrite app_nil_r.
    destruct fuel; cbn [TestTimer.advance_loop];
      rewrite (loop_guard_false _ _ Hexit); reflexivity.
  - destruct fuel as [|fuel]; [simpl in Hfuel; lia|].
    cbn [TestTimer.advance_loop].
    rewrite (loop_guard_true _ _ He Hle), (advance_body_fire _ Hname Hmove).
    rewrite IH.
    + rewrite <- app_assoc. reflexivity.
    + rewrite fire_name. exact Hname.
    + simpl in Hfuel. lia.
Qed.

(** The same for the ending in [OverflowError]: the events gathered so far
    are lost with the list. *)
Lemma overflows_run (to_time : datetime) (self self' : TestTimer.t) :
  overflows to_time self self' ->
  Timer.name (TestTimer.base self) <> "" ->
  exists n : nat,
    forall (fuel : nat) (acc : list TimeEvent.t),
      (n <= fuel)%nat ->
      TestTimer.advance_loop fuel to_time acc self
      = (Raises (OverflowError "date value out of range"), self').
Proof.
  induction 1 as [self He Hle Hmove | self self' He Hle Hmove Hrest IH];
    intros Hname.
  - exists 1%nat. intros fuel acc Hfuel.
    destruct fuel as [|fuel]; [lia|]. cbn [TestTimer.advance_loop].
    rewrite (loop_guard_true _ _ He Hle),
      (advance_body_overflows _ Hname Hmove). reflexivity.
  - destruct IH as [n IH]; [rewrite fire_name; exact Hname|].
    exists (S n). intros fuel acc Hfuel.
    destruct fuel as [|fuel]; [lia|]. cbn [TestTimer.advance_loop].
    rewrite (loop_guard_true _ _ He Hle), (advance_body_fire _ Hname Hmove).
    apply IH. lia.
Qed.

(** The loop ends, one way or the other, whenever the interval is
    positive. *)
Lemma loop_ends (to_time : datetime) (self : TestTimer.t) :
  0 < Timer.interval (TestTimer.base self) ->
  (exists events self', advances to_time self events self') \/
  (exists self', overflows to_time self self').
Proof.
  remember (Z.to_nat (to_time - TestTimer.next_time self + 1)) as n eqn:Hn.
  revert self Hn.
  induction n as [n IH] using lt_wf_ind. intros self Hn Hpos.
  destruct (loop_guard_cases to_time self) as [(_ & He & Hle) | (_ & Hexit)].
  - destruct (can_move (TestTimer.base self)) eqn:Hmove.
    + destruct (IH (Z.to_nat (to_time - TestTimer.next_time (snd (fire self))
                              + 1))) with (self := snd (fire self))
        as [(events & self' & Hrun) | (self' & Hrun)].
      * rewrite fire_next_time. lia.
      * reflexivity.
      * exact Hpos.
      * left. exists (fst (fire self) :: events), self'.
        constructor; assumption.
      * right. exists self'. apply overflows_later; assumption.
    + right. exists (drawn self). constructor; assumption.
  - left. exists [], self. constructor. exact Hexit.
Qed.

(** The loop returns when no fire point it computes passes
    [datetime.max]: it is enough that [to_time + interval] does not. *)
Lemma advances_total (to_time : datetime) (self : TestTimer.t) :
  0 < Timer.interval (TestTimer.base self) ->
  datetime_min <= TestTimer.next_time self ->
  to_time + Timer.interval (TestTimer.base self) <= datetime_max ->
  exists events self', advances to_time self events self'.
Proof.
  remember (Z.to_nat (to_time - TestTimer.next_time self + 1)) as n eqn:Hn.
  revert self Hn.
  induction n as [n IH] using lt_wf_ind. intros self Hn Hpos Hmin Hmax.
  destruct (loop_guard_cases to_time self) as [(_ & He & Hle) | (_ & Hexit)].
  - destruct (IH (Z.to_nat (to_time - TestTimer.next_time (snd (fire self))
                            + 1))) with (self := snd (fire self))
      as (events & self' & Hrun).
    + rewrite fire_next_time. lia.
    + reflexivity.
    + exact Hpos.
    + rewrite fire_next_time. lia.
    + rewrite fire_interval. exact Hmax.
    + exists (fst (fire self) :: events), self'.
      constructor; try assumption.
      apply in_datetime_range_true. unfold is_datetime.
      unfold TestTimer.next_time in *. lia.
  - exists [], self. constructor. exact Hexit.
Qed.

(** The loop leaves every field but [next_time], [expired] and the
    identifier source as it found it. *)
Lemma advances_frame (to_time : datetime) (self self' : TestTimer.t)
    (events : list TimeEvent.t) :
  advances to_time self events self' ->
  let b := TestTimer.base self in
  let b' := TestTimer.base self' in
  Timer.name b' = Timer.name b /\
  Timer.callback b' = Timer.callback b /\
  Timer.interval b' = Timer.interval b /\
  Timer.start_time b' = Timer.start_time b /\
  Timer.stop_time b' = Timer.stop_time b /\
  Timer.next_time b' = fire_point self (length events).
Proof.
  induction 1 as [self Hexit | self events self' He Hle Hmove Hrest IH].
  - unfold fire_point, TestTimer.next_time. simpl. repeat split; lia.
  - cbn zeta in *. destruct IH as (H1 & H2 & H3 & H4 & H5 & H6).
    cbn [length]. rewrite fire_point_succ.
    repeat split; assumption.
Qed.

(** The events carry the timer's name and the consecutive fire points. *)
Lemma advances_events (to_time : datetime) (self self' : TestTimer.t)
    (events : list TimeEvent.t) :
  advances to_time self events self' ->
  map TimeEvent.timestamp events
  = fire_points (TestTimer.next_time self)
                (Timer.interval (TestTimer.base self)) (length events) /\
  Forall (fun e => TimeEvent.name e = Timer.name (TestTimer.base self))
         events.
Proof.
  induction 1 as [self Hexit | self events self' He Hle Hmove Hrest IH].
  - split; [reflexivity | constructor].
  - destruct IH as [IHt IHn]. split.
    + cbn [map length fire_points]. f_equal. exact IHt.
    + constructor; [reflexivity | exact IHn].
Qed.

(** Every event of one call is due: its fire point is not after
    [to_time]. *)
Lemma advances_sound (to_time : datetime) (self self' : TestTimer.t)
    (events : list TimeEvent.t) :
  advances to_time self events self' ->
  forall i : nat, (i < length events)%nat -> fire_point self i <= to_time.
Proof.
  induction 1 as [self Hexit | self events self' He Hle Hmove Hrest IH];
    intros i Hi.
  - simpl in Hi. lia.
  - destruct i as [|i].
    + unfold fire_point. lia.
    + rewrite fire_point_succ. apply IH. simpl in Hi. lia.
Qed.

(** Every due fire point that is not after the stop time gets its event. *)
Lemma advances_complete (to_time : datetime) (self self' : TestTimer.t)
    (events : list TimeEvent.t) :
  advances to_time self events self' ->
  0 < Timer.interval (TestTimer.base self) ->
  TestTimer.expired self = false ->
  forall i : nat,
    fire_point self i <= to_time ->
    within_stop self (fire_point self i) ->
    (i < length events)%nat.
Proof.
  induction 1 as [self Hexit | self events self' He Hle Hmove Hrest IH];
    intros Hpos Hlive i Hdue Hstop.
  - exfalso. destruct Hexit as [Hx | Hlt]; [congruence|].
    unfold fire_point in Hdue. nia.
  - destruct i as [|i]; [simpl; lia|].
    apply -> Nat.succ_lt_mono. apply IH.
    + exact Hpos.
    + rewrite fire_expired, Hlive. unfold stop_reached.
      destruct (Timer.stop_time (TestTimer.base self)) as [stop|] eqn:Es;
        [|reflexivity].
      destruct (Z.geb_spec (TestTimer.next_time self) stop) as [Hge|];
        [|reflexivity].
      exfalso. specialize (Hstop stop Es). unfold fire_point in Hstop. nia.
    + rewrite <- fire_point_succ. exact Hdue.
    + intros stop Es. rewrite <- fire_point_succ. apply Hstop. exact Es.
Qed.

(** An expired timer is left alone. *)
Lemma advances_expired (to_time : datetime) (self self' : TestTimer.t)
    (events : list TimeEvent.t) :
  advances to_time self events self' ->
  TestTimer.expired self = true ->
  events = [] /\ self' = self.
Proof.
  destruct 1 as [self Hexit | self events self' He Hle Hmove Hrest];
    intros Hx.
  - split; reflexivity.
  - congruence.
Qed.

(** Two calls in a row are one call to the later time. *)
Lemma advances_split (t1 t2 : datetime) (self self1 self2 : TestTimer.t)
    (events1 events2 : list TimeEvent.t) :
  t1 <= t2 ->
  advances t1 self events1 self1 ->
  advances t2 self1 events2 self2 ->
  advances t2 self (events1 ++ events2)%list self2.
Proof.
  intros Hle H1. revert events2 self2.
  induction H1 as [self Hexit | self events self' He Hn Hmove Hrest IH];
    intros events2 self2 H2.
  - exact H2.
  - cbn [app].
    constructor; [exact He | lia | exact Hmove | apply IH; exact H2].
Qed.

(** Where the loop stops. *)
Lemma advances_exit (to_time : datetime) (self self' : TestTimer.t)
    (events : list TimeEvent.t) :
  advances to_time self events self' ->
  TestTimer.expired self' = true \/ to_time < TestTimer.next_time self'.
Proof.
  induction 1 as [self Hexit | self events self' He Hle Hmove Hrest IH];
    assumption.
Qed.

(** An event that is followed by another one was stamped before the stop
    time. *)
Lemma advances_before_stop (to_time : datetime) (self self' : TestTimer.t)
    (events : list TimeEvent.t) :
  advances to_time self events self' ->
  forall (stop : datetime) (i : nat),
    Timer.stop_time (TestTimer.base self) = Some stop ->
    (S i < length events)%nat ->
    fire_point self i < stop.
Proof.
  induction 1 as [self Hexit | self events self' He Hle Hmove Hrest IH];
    intros stop i Hstop Hi.
  - simpl in Hi. lia.
  - destruct i as [|i].
    + inversion Hrest
        as [s Hexit E1 E2 E3 | s evs s2 He1 Hle1 Hmove1 Hrest1 E1 E2 E3].
      * subst events. simpl in Hi. lia.
      * rewrite fire_expired in He1. unfold stop_reached in He1.
        rewrite Hstop in He1.
        destruct (Z.geb_spec (TestTimer.next_time self) stop);
          [discriminate|].
        unfold fire_point. lia.
    + rewrite fire_point_succ. apply IH.
      * rewrite fire_stop_time. exact Hstop.
      * simpl in Hi. lia.
Qed.

(** The loop leaves a timer expired exactly when the last event it
    appended was stamped at or after the stop time. *)
Lemma advances_expired_iff (to_time : datetime) (self self' : TestTimer.t)
    (events : list TimeEvent.t) :
  advances to_time self events self' ->
  TestTimer.expired self = false ->
  (TestTimer.expired self' = true <->
   exists (stop : datetime) (j : nat),
     Timer.stop_time (TestTimer.base self) = Some stop /\
     length events = S j /\ stop <= fire_point self j).
Proof.
  induction 1 as [self Hexit | self events self' He Hle Hmove Hrest IH];
    intros Hlive.
  - split.
    + congruence.
    + intros (stop & j & _ & Hlen & _). discriminate.
  - destruct (TestTimer.expired (snd (fire self))) eqn:Hx.
    + destruct (advances_expired _ _ _ _ Hrest Hx) as [-> ->].
      split; [intros _ | intros _; exact Hx].
      rewrite fire_expired, Hlive in Hx. unfold stop_reached in Hx.
      destruct (Timer.stop_time (TestTimer.base self)) as [stop|];
        [|discriminate].
      exists stop, 0%nat. split; [reflexivity | split; [reflexivity|]].
      destruct (Z.geb_spec (TestTimer.next_time self) stop);
        [|discriminate].
      unfold fire_point. lia.
    + rewrite (IH eq_refl). rewrite fire_stop_time.
      split; intros (stop & j & Hstop & Hlen & Hge).
      * exists stop, (S j). rewrite fire_point_succ. cbn [length].
        split; [exact Hstop | split; [congruence | exact Hge]].
      * exists stop. destruct j as [|j].
        -- exfalso. rewrite fire_expired, Hlive in Hx.
           unfold stop_reached in Hx. rewrite Hstop in Hx.
           unfold fire_point in Hge.
           destruct (Z.geb_spec (TestTimer.next_time self) stop);
             [discriminate | lia].
        -- exists j. rewrite <- fire_point_succ. cbn [length] in Hlen.
           split; [exact Hstop | split; [congruence | exact Hge]].
Qed.

(** The events of one call carry strictly increasing timestamps, none
    before the timer's [next_time]. *)
Lemma advances_increasing (to_time : datetime) (self self' : TestTimer.t)
    (events : list TimeEvent.t) :
  advances to_time self events self' ->
  0 < Timer.interval (TestTimer.base self) ->
  Forall (fun e => TestTimer.next_time self <= TimeEvent.timestamp e) events /\
  StronglySorted
    (fun e1 e2 => TimeEvent.timestamp e1 < TimeEvent.timestamp e2) events.
Proof.
  induction 1 as [self Hexit | self events self' He Hle Hmove Hrest IH];
    intros Hpos.
  - split; constructor.
  - destruct IH as [IHf IHs]; [rewrite fire_interval; exact Hpos|].
    rewrite fire_next_time in IHf. split.
    + constructor; [cbn; unfold TestTimer.next_time; lia|].
      eapply Forall_impl; [|exact IHf]. cbn. intros e H. lia.
    + constructor; [exact IHs|].
      eapply Forall_impl; [|exact IHf]. cbn. intros e H.
      unfold TestTimer.next_time in H. lia.
Qed.

Lemma advances_due (to_time : datetime) (self self' : TestTimer.t)
    (events : list TimeEvent.t) :
  advances to_time self events self' ->
  Forall (fun e => TimeEvent.timestamp e <= to_time) events.
Proof.
  induction 1 as [self Hexit | self events self' He Hle Hmove Hrest IH];
    constructor; [exact Hle | exact IH].
Qed.

(** The [i]-th event of one call is stamped with the [i]-th fire point. *)
Lemma advances_nth (to_time : datetime) (self self' : TestTimer.t)
    (events : list TimeEvent.t) :
  advances to_time self events self' ->
  forall (i : nat) (e : TimeEvent.t),
    nth_error events i = Some e ->
    TimeEvent.timestamp e = fire_point self i.
Proof.
  induction 1 as [self Hexit | self events self' He Hle Hmove Hrest IH];
    intros i e Hnth.
  - destruct i; discriminate.
  - destruct i as [|i].
    + injection Hnth as <-. unfold fire_point. cbn. unfold TestTimer.next_time.
      lia.
    + rewrite fire_point_succ. apply IH. exact Hnth.
Qed.

Lemma fire_point_mono (self : TestTimer.t) (i j : nat) :
  0 < Timer.interval (TestTimer.base self) ->
  (i <= j)%nat -> fire_point self i <= fire_point self j.
Proof. intros Hpos Hij. unfold fire_point. nia. Qed.

(** Whatever the function returns, the big-step reading derives. *)
Lemma advance_loop_sound (to_time : datetime) (fuel : nat) :
  forall (acc out : list TimeEvent.t) (self self' : TestTimer.t),
    Timer.name (TestTimer.base self) <> "" ->
    TestTimer.advance_loop fuel to_time acc self = (Returns out, self') ->
    exists events,
      out = (acc ++ events)%list /\ advances to_time self events self'.
Proof.
  induction fuel as [|fuel IH]; intros acc out self self' Hname;
    cbn [TestTimer.advance_loop];
    destruct (loop_guard_cases to_time self)
      as [(-> & He & Hle) | (-> & Hexit)].
  - discriminate.
  - intros [= <- <-]. exists []. rewrite app_nil_r. split; [reflexivity|].
    constructor. exact Hexit.
  - destruct (can_move (TestTimer.base self)) eqn:Hmove.
    + rewrite (advance_body_fire _ Hname Hmove). intros Hrun.
      apply IH in Hrun as (events & -> & Hadv);
        [|rewrite fire_name; exact Hname].
      exists (fst (fire self) :: events). rewrite <- app_assoc.
      split; [reflexivity | constructor; assumption].
    + rewrite (advance_body_overflows _ Hname Hmove). discriminate.
  - intros [= <- <-]. exists []. rewrite app_nil_r. split; [reflexivity|].
    constructor. exact Hexit.
Qed.

Lemma advance_sound (to_time : datetime) (fuel : nat)
    (events : list TimeEvent.t) (self self' : TestTimer.t) :
  Timer.name (TestTimer.base self) <> "" ->
  TestTimer.advance fuel (Some to_time) self = (Returns events, self') ->
  advances to_time self events self'.
Proof.
  intros Hname. unfold TestTimer.advance, bind, lift.
  cbn [Condition.not_none]. intros Hrun.
  apply advance_loop_sound in Hrun as (evs & -> & Hadv); assumption.
Qed.

Lemma advance_run (to_time : datetime) (self self' : TestTimer.t)
    (events : list TimeEvent.t) (fuel : nat) :
  advances to_time self events self' ->
  Timer.name (TestTimer.base self) <> "" ->
  (length events <= fuel)%nat ->
  TestTimer.advance fuel (Some to_time) self = (Returns events, self').
Proof.
  intros Hadv Hname Hfuel.
  unfold TestTimer.advance, bind, lift. cbn [Condition.not_none].
  exact (advances_run _ _ _ _ Hadv Hname fuel [] Hfuel).
Qed.

Lemma advance_overflows (to_time : datetime) (self self' : TestTimer.t) :
  overflows to_time self self' ->
  Timer.name (TestTimer.base self) <> "" ->
  exists n : nat,
    forall fuel : nat,
      (n <= fuel)%nat ->
      TestTimer.advance fuel (Some to_time) self
      = (Raises (OverflowError "date value out of range"), self').
Proof.
  intros Hov Hname.
  destruct (overflows_run _ _ _ Hov Hname) as [n Hn].
  exists n. intros fuel Hfuel.
  unfold TestTimer.advance, bind, lift. cbn [Condition.not_none].
  apply Hn. exact Hfuel.
Qed.

Lemma advances_fire_eq (to_time : datetime) (self self1 self' : TestTimer.t)
    (e : TimeEvent.t) (events : list TimeEvent.t) :
  TestTimer.expired self = false ->
  TestTimer.next_time self <= to_time ->
  is_datetime (TestTimer.next_time self + Timer.interval (TestTimer.base self)) ->
  fire self = (e, self1) ->
  advances to_time self1 events self' ->
  advances to_time self (e :: events) self'.
Proof.
  intros He Hle Hmove Hf Hrest.
  change e with (fst (e, self1)). rewrite <- Hf.
  apply advances_fire; [assumption | assumption | |].
  - apply in_datetime_range_true. exact Hmove.
  - rewrite Hf. exact Hrest.
Qed.

(* ------------------------------------------------------------------ *)
(** ** What the loop leaves of the [Timer] fields *)

Lemma advances_settles (to_time : datetime) (self self' : TestTimer.t)
    (events : list TimeEvent.t) :
  advances to_time self events self' ->
  settles to_time (TestTimer.base self) (TestTimer.base self').
Proof.
  induction 1 as [self Hexit | self events self' He Hle Hmove Hrest IH].
  - apply settles_here. destruct Hexit as [H | H]; auto.
  - apply settles_move; assumption.
Qed.

Lemma overflows_settles (to_time : datetime) (self self' : TestTimer.t) :
  overflows to_time self self' ->
  settles to_time (TestTimer.base self) (TestTimer.base self').
Proof.
  induction 1 as [self He Hle Hmove | self self' He Hle Hmove Hrest IH].
  - apply settles_here. auto.
  - apply settles_move; assumption.
Qed.

Lemma settles_functional (to_time : datetime) (b b1 b2 : Timer.t) :
  settles to_time b b1 -> settles to_time b b2 -> b1 = b2.
Proof.
  intros H1. revert b2.
  induction H1 as [b Hstop | b b1 He Hle Hmove Hrest IH]; intros b2 H2;
    destruct H2 as [b Hstop2 | b b2 He2 Hle2 Hmove2 Hrest2].
  - reflexivity.
  - exfalso. destruct Hstop as [H | [H | H]]; [congruence | lia | congruence].
  - exfalso. destruct Hstop2 as [H | [H | H]]; [congruence | lia | congruence].
  - apply IH. exact Hrest2.
Qed.

(** Settling for [t1] and then for a later [t2] is settling for [t2]. *)
Lemma settles_trans (t1 t2 : datetime) (b b1 b2 : Timer.t) :
  t1 <= t2 ->
  settles t1 b b1 -> settles t2 b1 b2 -> settles t2 b b2.
Proof.
  intros Hle H1. revert b2.
  induction H1 as [b Hstop | b b1 He Hn Hmove Hrest IH]; intros b2 H2.
  - exact H2.
  - apply settles_move; [exact He | lia | exact Hmove | apply IH; exact H2].
Qed.

Lemma settles_frame (to_time : datetime) (b b' : Timer.t) :
  settles to_time b b' ->
  Timer.name b' = Timer.name b /\ Timer.interval b' = Timer.interval b.
Proof.
  induction 1 as [b Hstop | b b' He Hle Hmove Hrest IH].
  - split; reflexivity.
  - exact IH.
Qed.

(** A timer with the same fields and another identifier source goes the
    same way: events with the same names and timestamps, the same fields
    left. *)
Lemma advances_same_base (to_time : datetime) (self self' : TestTimer.t)
    (events : list TimeEvent.t) :
  advances to_time self events self' ->
  forall other : TestTimer.t,
    TestTimer.base other = TestTimer.base self ->
    exists events' other',
      advances to_time other events' other' /\
      TestTimer.base other' = TestTimer.base self' /\
      map TimeEvent.name events' = map TimeEvent.name events /\
      map TimeEvent.timestamp events' = map TimeEvent.timestamp events.
Proof.
  induction 1 as [self Hexit | self events self' He Hle Hmove Hrest IH];
    intros other Hb.
  - exists [], other. split; [|split; [exact Hb | split; reflexivity]].
    constructor. unfold TestTimer.expired, TestTimer.next_time in *.
    rewrite Hb. exact Hexit.
  - destruct (IH (snd (fire other))) as (events' & other' & Hadv & Hb' & Hn & Ht).
    { rewrite !fire_base, Hb. reflexivity. }
    exists (fst (fire other) :: events'), other'.
    split; [|split; [exact Hb' | split]].
    + apply advances_fire; [| | |exact Hadv];
        unfold TestTimer.expired, TestTimer.next_time in *;
        rewrite Hb; assumption.
    + cbn [map fire fst TimeEvent.name]. rewrite Hb, Hn. reflexivity.
    + cbn [map fire fst TimeEvent.timestamp]. rewrite Hb, Ht. reflexivity.
Qed.

(** The outcome of [advance] on a timer that satisfies the class
    invariant: with enough fuel the call returns or raises, always the
    same way, and leaves the [Timer] fields settled. *)
Lemma advance_outcome (to_time : datetime) (self : TestTimer.t) :
  Timer.name (TestTimer.base self) <> "" ->
  0 < Timer.interval (TestTimer.base self) ->
  exists (n : nat) (r : outcome (list TimeEvent.t)) (self' : TestTimer.t),
    (forall fuel, (n <= fuel)%nat ->
       TestTimer.advance fuel (Some to_time) self = (r, self')) /\
    r <> OutOfFuel /\
    settles to_time (TestTimer.base self) (TestTimer.base self') /\
    (forall events, r = Returns events -> advances to_time self events self').
Proof.
  intros Hname Hpos.
  destruct (loop_ends to_time self Hpos)
    as [(events & self' & Hadv) | (self' & Hov)].
  - exists (length events), (Returns events), self'.
    split; [|split; [discriminate | split]].
    + intros fuel Hfuel. apply advance_run; assumption.
    + apply advances_settles with (events := events). exact Hadv.
    + intros events' [= <-]. exact Hadv.
  - destruct (advance_overflows _ _ _ Hov Hname) as [n Hn].
    exists n, (Raises (OverflowError "date value out of range")), self'.
    split; [exact Hn | split; [discriminate | split]].
    + apply overflows_settles. exact Hov.
    + discriminate.
Qed.

(* ------------------------------------------------------------------ *)
(** ** Construction *)

Lemma Timer_init_eq (name : string) (callback : Callback)
    (interval : timedelta) (start_time : datetime)
    (stop_time : option datetime) :
  Timer.__init__ name callback interval start_time stop_time
  = let self := Timer.mk name callback interval start_time
                         (start_time + interval) stop_time false in
    if String.eqb name "" then Raises (ValueError "name")
    else if 0 <? interval then
      if in_datetime_range (start_time + interval) then
        match stop_time with
        | Some stop =>
            if start_time + interval <=? stop then Returns self
            else Raises (ValueError "start_time + interval <= stop_time")
        | None => Returns self
        end
      else Raises (OverflowError "date value out of range")
    else Raises (ValueError "interval").
Proof.
  unfold Timer.__init__, Condition.valid_string, Condition.callable,
    Condition.true, datetime_add.
  rewrite positive_total_seconds.
  destruct (String.eqb name ""), (0 <? interval),
    (in_datetime_range (start_time + interval)), stop_time as [stop|];
    simpl; try reflexivity.
  destruct (start_time + interval <=? stop); reflexivity.
Qed.

Lemma Timer_init_accepted (name : string) (callback : Callback)
    (interval : timedelta) (start_time : datetime)
    (stop_time : option datetime) :
  accepted name interval start_time stop_time ->
  is_datetime (start_time + interval) ->
  Timer.__init__ name callback interval start_time stop_time
  = Returns (Timer.mk name callback interval start_time
                      (start_time + interval) stop_time false).
Proof.
  intros (Hn & Hi & Hs) Hr. rewrite Timer_init_eq. cbv zeta.
  apply in_datetime_range_true in Hr. rewrite Hr.
  destruct (String.eqb_spec name ""); [contradiction|].
  destruct (Z.ltb_spec 0 interval); [|lia].
  destruct stop_time as [stop|]; [|reflexivity].
  destruct (Z.leb_spec (start_time + interval) stop); [reflexivity|].
  specialize (Hs stop eq_refl). lia.
Qed.

Lemma Timer_init_overflow (name : string) (callback : Callback)
    (interval : timedelta) (start_time : datetime)
    (stop_time : option datetime) :
  name <> "" -> 0 < interval ->
  ~ is_datetime (start_time + interval) ->
  Timer.__init__ name callback interval start_time stop_time
  = Raises (OverflowError "date value out of range").
Proof.
  intros Hn Hi Hr. rewrite Timer_init_eq. cbv zeta.
  apply in_datetime_range_false in Hr. rewrite Hr.
  destruct (String.eqb_spec name ""); [contradiction|].
  destruct (Z.ltb_spec 0 interval); [reflexivity | lia].
Qed.

Lemma Timer_init_returns (name : string) (callback : Callback)
    (interval : timedelta) (start_time : datetime)
    (stop_time : option datetime) (self : Timer.t) :
  Timer.__init__ name callback interval start_time stop_time = Returns self ->
  accepted name interval start_time stop_time /\
  is_datetime (start_time + interval) /\
  self = Timer.mk name callback interval start_time (start_time + interval)
                  stop_time false.
Proof.
  rewrite Timer_init_eq. cbv zeta. unfold accepted.
  destruct (String.eqb_spec name ""); [discriminate|].
  destruct (Z.ltb_spec 0 interval); [|discriminate].
  destruct (in_datetime_range (start_time + interval)) eqn:Hr;
    [|discriminate].
  apply in_datetime_range_true in Hr.
  destruct stop_time as [stop|].
  - destruct (Z.leb_spec (start_time + interval) stop); [|discriminate].
    intros [= <-]. repeat split; try assumption; try apply Hr.
    intros stop' [= <-]. assumption.
  - intros [= <-]. repeat split; try assumption; try apply Hr. discriminate.
Qed.

Lemma Timer_init_rejected (name : string) (callback : Callback)
    (interval : timedelta) (start_time : datetime)
    (stop_time : option datetime) :
  name = "" \/ interval <= 0 \/
  (exists stop, stop_time = Some stop /\ start_time + interval > stop) ->
  exists e,
    Timer.__init__ name callback interval start_time stop_time = Raises e.
Proof.
  intros H. rewrite Timer_init_eq. cbv zeta.
  destruct (String.eqb_spec name ""); [eauto|].
  destruct (Z.ltb_spec 0 interval); [|eauto].
  destruct (in_datetime_range (start_time + interval)); [|eauto].
  destruct H as [H | [H | (stop & -> & H)]]; [contradiction | lia |].
  destruct (Z.leb_spec (start_time + interval) stop); [lia | eauto].
Qed.

Lemma TestTimer_init_eq (name : string) (callback : Callback)
    (interval : timedelta) (start_time : datetime)
    (stop_time : option datetime) (uuids : nat -> UUID) :
  TestTimer.__init__ name callback interval start_time stop_time uuids
  = match Timer.__init__ name callback interval start_time stop_time with
    | Returns b => Returns (TestTimer.mk b (UUIDFactory.__init__ uuids))
    | Raises e => Raises e
    | OutOfFuel => OutOfFuel
    end.
Proof.
  unfold TestTimer.__init__. rewrite Timer_init_eq. cbv zeta.
  unfold Condition.valid_string.
  destruct (String.eqb name ""); reflexivity.
Qed.

Lemma TestTimer_init_returns (name : string) (callback : Callback)
    (interval : timedelta) (start_time : datetime)
    (stop_time : option datetime) (uuids : nat -> UUID)
    (self : TestTimer.t) :
  TestTimer.__init__ name callback interval start_time stop_time uuids
    = Returns self ->
  accepted name interval start_time stop_time /\
  is_datetime (start_time + interval) /\
  self = TestTimer.mk
           (Timer.mk name callback interval start_time
                     (start_time + interval) stop_time false)
           (UUIDFactory.__init__ uuids).
Proof.
  rewrite TestTimer_init_eq.
  destruct (Timer.__init__ name callback interval start_time stop_time)
    as [b| |] eqn:Hb; try discriminate.
  intros [= <-]. apply Timer_init_returns in Hb as (Ha & Hr & ->). auto.
Qed.

(** C6 (amended): construction with an empty name, a non-positive interval
    or a stop time before the first fire point raises, and returns no
    timer; a construction that passes these checks returns a timer when
    [start_time + interval] is a [datetime], and raises [OverflowError]
    when it is not; a timer that is returned has the arguments for fields,
    [next_time = start_time + interval], is not expired and satisfies the
    three checks.  The same holds for [TestTimer]. *)
Theorem C6_construction_validated (name : string) (callback : Callback)
    (interval : timedelta) (start_time : datetime)
    (stop_time : option datetime) (uuids : nat -> UUID) :
  (name = "" \/ interval <= 0 \/
   (exists stop, stop_time = Some stop /\ start_time + interval > stop) ->
   (exists e,
      Timer.__init__ name callback interval start_time stop_time = Raises e)
   /\
   (exists e,
      TestTimer.__init__ name callback interval start_time stop_time uuids
      = Raises e)) /\
  (accepted name interval start_time stop_time ->
   is_datetime (start_time + interval) ->
   let b := Timer.mk name callback interval start_time
                     (start_time + interval) stop_time false in
   Timer.__init__ name callback interval start_time stop_time = Returns b /\
   TestTimer.__init__ name callback interval start_time stop_time uuids
   = Returns (TestTimer.mk b (UUIDFactory.__init__ uuids))) /\
  (accepted name interval start_time stop_time ->
   ~ is_datetime (start_time + interval) ->
   Timer.__init__ name callback interval start_time stop_time
   = Raises (OverflowError "date value out of range") /\
   TestTimer.__init__ name callback interval start_time stop_time uuids
   = Raises (OverflowError "date value out of range")) /\
  (forall self,
     Timer.__init__ name callback interval start_time stop_time
       = Returns self ->
     valid self /\ is_datetime (Timer.next_time self)) /\
  (forall self,
     TestTimer.__init__ name callback interval start_time stop_time uuids
       = Returns self ->
     valid (TestTimer.base self) /\ is_datetime (TestTimer.next_time self)).
Proof.
  split; [|split; [|split; [|split]]].
  - intros H.
    destruct (Timer_init_rejected name callback interval start_time
                stop_time H) as [e He].
    split; [eauto|]. rewrite TestTimer_init_eq, He. eauto.
  - intros Ha Hr. cbv zeta.
    rewrite TestTimer_init_eq, (Timer_init_accepted _ _ _ _ _ Ha Hr).
    split; reflexivity.
  - intros (Hn & Hi & _) Hr.
    rewrite TestTimer_init_eq, (Timer_init_overflow _ _ _ _ _ Hn Hi Hr).
    split; reflexivity.
  - intros self H. apply Timer_init_returns in H as (Ha & Hr & ->).
    split; [exact Ha | exact Hr].
  - intros self H. apply TestTimer_init_returns in H as (Ha & Hr & ->).
    split; [exact Ha | exact Hr].
Qed.

Lemma C6_construction_validated_witness :
  accepted "TEST_TIMER" (seconds 1) 0 (Some (milliseconds 2500)) /\
  is_datetime (0 + seconds 1) /\
  TestTimer.__init__ "TEST_TIMER" 0%nat (seconds 1) 0
                     (Some (milliseconds 2500)) (fun n => n)
  = Returns (fresh_timer (Some (milliseconds 2500))) /\
  (exists e,
     Timer.__init__ "TEST_TIMER" 0%nat (seconds 1) 0
                    (Some (milliseconds 500)) = Raises e).
Proof.
  assert (Ha : accepted "TEST_TIMER" (seconds 1) 0 (Some (milliseconds 2500))).
  { split; [discriminate | split; [reflexivity|]].
    intros stop [= <-]. unfold seconds, milliseconds. lia. }
  assert (Hr : is_datetime (0 + seconds 1)).
  { unfold is_datetime, datetime_min, datetime_max, seconds. lia. }
  split; [exact Ha | split; [exact Hr | split]].
  - exact (proj2 (proj1 (proj2
      (C6_construction_validated "TEST_TIMER" 0%nat (seconds 1) 0
         (Some (milliseconds 2500)) (fun n => n))) Ha Hr)).
  - refine (proj1 (proj1
      (C6_construction_validated "TEST_TIMER" 0%nat (seconds 1) 0
         (Some (milliseconds 500)) (fun n => n)) _)).
    right. right. exists (milliseconds 500). split; reflexivity.
Defined.

(** Where the unamended sentence fails: a timer of interval two days
    starting on 9999-12-31 passes the three checks, and its construction
    raises [OverflowError] at [start_time + interval]. *)
Lemma C6_counterexample :
  is_datetime last_day /\
  ~ passing_the_checks_succeeds "TEST_TIMER" 0%nat (seconds 172800) last_day
      None.
Proof.
  split.
  - unfold is_datetime, datetime_min, datetime_max, last_day. lia.
  - intros H. destruct H as [self Hself].
    + split; [discriminate | split; [reflexivity | discriminate]].
    + vm_compute in Hself. discriminate.
Qed.

(* ------------------------------------------------------------------ *)
(** ** Ordering of handlers, identity of timers *)

(** C7: the six comparisons of [TimeEventHandler] are the comparisons of
    the two events' timestamps; names, identifiers and handlers play no
    part. *)
Theorem C7_handler_order_is_timestamp_order (h1 h2 : TimeEventHandler.t) :
  let t1 := TimeEvent.timestamp (TimeEventHandler.event h1) in
  let t2 := TimeEvent.timestamp (TimeEventHandler.event h2) in
  (TimeEventHandler.__lt__ h1 h2 = true <-> t1 < t2) /\
  (TimeEventHandler.__eq__ h1 h2 = true <-> t1 = t2) /\
  (TimeEventHandler.__ne__ h1 h2 = true <-> t1 <> t2) /\
  (TimeEventHandler.__le__ h1 h2 = true <-> t1 <= t2) /\
  (TimeEventHandler.__gt__ h1 h2 = true <-> t1 > t2) /\
  (TimeEventHandler.__ge__ h1 h2 = true <-> t1 >= t2) /\
  (forall name1 id1 handler1 name2 id2 handler2,
     let h1' := TimeEventHandler.mk (TimeEvent.mk name1 id1 t1) handler1 in
     let h2' := TimeEventHandler.mk (TimeEvent.mk name2 id2 t2) handler2 in
     TimeEventHandler.__lt__ h1' h2' = TimeEventHandler.__lt__ h1 h2 /\
     TimeEventHandler.__eq__ h1' h2' = TimeEventHandler.__eq__ h1 h2 /\
     TimeEventHandler.__ne__ h1' h2' = TimeEventHandler.__ne__ h1 h2 /\
     TimeEventHandler.__le__ h1' h2' = TimeEventHandler.__le__ h1 h2 /\
     TimeEventHandler.__gt__ h1' h2' = TimeEventHandler.__gt__ h1 h2 /\
     TimeEventHandler.__ge__ h1' h2' = TimeEventHandler.__ge__ h1 h2).
Proof.
  cbv zeta.
  unfold TimeEventHandler.__lt__, TimeEventHandler.__eq__,
    TimeEventHandler.__ne__, TimeEventHandler.__le__,
    TimeEventHandler.__gt__, TimeEventHandler.__ge__.
  repeat split; try reflexivity.
  - apply Z.ltb_lt.
  - apply Z.ltb_lt.
  - apply Z.eqb_eq.
  - apply Z.eqb_eq.
  - intros H E. apply Z.eqb_eq in E. rewrite E in H. discriminate.
  - intros H. apply negb_true_iff. apply Z.eqb_neq. exact H.
  - apply Z.leb_le.
  - apply Z.leb_le.
  - rewrite Z.gtb_ltb. intros H. apply Z.ltb_lt in H. lia.
  - rewrite Z.gtb_ltb. intros H. apply Z.ltb_lt. lia.
  - rewrite Z.geb_leb. intros H. apply Z.leb_le in H. lia.
  - rewrite Z.geb_leb. intros H. apply Z.leb_le. lia.
Qed.

(** C10: [Timer.__eq__] and [Timer.__hash__] look at the name only: timers
    of one name are equal and hash alike whatever their other fields, and
    timers of different names are not equal. *)
Theorem C10_timer_identity_is_name (hash : string -> Z) (t1 t2 : Timer.t) :
  (Timer.__eq__ t1 t2 = true <-> Timer.name t1 = Timer.name t2) /\
  (Timer.__ne__ t1 t2 = true <-> Timer.name t1 <> Timer.name t2) /\
  (Timer.name t1 = Timer.name t2 ->
   Timer.__hash__ hash t1 = Timer.__hash__ hash t2) /\
  (forall callback interval start_time next_time stop_time expired,
     let t2' := Timer.mk (Timer.name t1) callback interval start_time
                         next_time stop_time expired in
     Timer.__eq__ t1 t2' = true /\
     Timer.__ne__ t1 t2' = false /\
     Timer.__hash__ hash t1 = Timer.__hash__ hash t2').
Proof.
  unfold Timer.__eq__, Timer.__ne__, Timer.__hash__. repeat split.
  - apply String.eqb_eq.
  - apply String.eqb_eq.
  - intros H E. apply String.eqb_eq in E. rewrite E in H. discriminate.
  - intros H. apply negb_true_iff. apply String.eqb_neq. exact H.
  - intros ->. reflexivity.
  - apply String.eqb_refl.
  - cbn [Timer.name]. rewrite String.eqb_refl. reflexivity.
Qed.

Lemma C10_timer_identity_is_name_witness :
  Timer.__eq__
    (Timer.mk "A" 0%nat (seconds 1) 0 (seconds 1) None false)
    (Timer.mk "A" 5%nat (seconds 7) 3 (seconds 9) (Some (seconds 20)) true)
  = true /\
  Timer.__eq__
    (Timer.mk "A" 0%nat (seconds 1) 0 (seconds 1) None false)
    (Timer.mk "B" 0%nat (seconds 1) 0 (seconds 1) None false)
  = false.
Proof.
  split.
  - apply (proj1 (C10_timer_identity_is_name (fun _ => 0)
      (Timer.mk "A" 0%nat (seconds 1) 0 (seconds 1) None false)
      (Timer.mk "A" 5%nat (seconds 7) 3 (seconds 9) (Some (seconds 20)) true))).
    reflexivity.
  - reflexivity.
Defined.

(* ------------------------------------------------------------------ *)
(** ** [pop_event] *)

(** C9: on a timer that satisfies the class invariant, [pop_event] with an
    identifier that is not [None] returns the event made of the timer's
    name, that identifier and the timer's [next_time], and hands the timer
    back with every field as it was. *)
Theorem C9_pop_event_reads_only (self : Timer.t) (event_id : UUID) :
  valid self ->
  Timer.pop_event (Some event_id) self
  = (Returns (TimeEvent.mk (Timer.name self) event_id (Timer.next_time self)),
     self).
Proof.
  intros (Hn & _). apply pop_event_valid. exact Hn.
Qed.

Lemma C9_pop_event_reads_only_witness :
  valid (TestTimer.base (fresh_timer None)) /\
  Timer.pop_event (Some 42%nat) (TestTimer.base (fresh_timer None))
  = (Returns (TimeEvent.mk "TEST_TIMER" 42%nat (seconds 1)),
     TestTimer.base (fresh_timer None)).
Proof.
  assert (Hv : valid (TestTimer.base (fresh_timer None))).
  { split; [discriminate | split; [reflexivity | discriminate]]. }
  split; [exact Hv|].
  exact (C9_pop_event_reads_only (TestTimer.base (fresh_timer None)) 42%nat Hv).
Defined.

(* ------------------------------------------------------------------ *)
(** ** [advance] *)

(** One unrolling of the loop on a timer given by its fields: the guard
    and the range by arithmetic, the stop test by cases. *)
Ltac fire_step :=
  eapply advances_fire_eq;
  [ reflexivity
  | cbn; unfold seconds, milliseconds; lia
  | cbn; unfold is_datetime, datetime_min, datetime_max, seconds,
      milliseconds in *; lia
  | unfold fire, moved, next_id, drawn, stop_reached; cbn;
    try match goal with
        | |- context [?a >=? ?b] =>
            destruct (Z.geb_spec a b);
            first [ exfalso; unfold seconds, milliseconds in *; lia
                  | reflexivity ]
        end;
    reflexivity
  | ].

(** The timer of the two scenarios, stop time [T0 + 2.5s], advanced to
    [T0 + 10s]. *)
Lemma scenario_with_stop (T0 : datetime) (name : string)
    (callback : Callback) (uuids : nat -> UUID) :
  datetime_min <= T0 ->
  T0 + seconds 10 <= datetime_max ->
  exists events self',
    advances (T0 + seconds 10)
      (TestTimer.mk
         (Timer.mk name callback (seconds 1) T0 (T0 + seconds 1)
                   (Some (T0 + milliseconds 2500)) false)
         (UUIDFactory.__init__ uuids))
      events self' /\
    length events = 3%nat /\
    map TimeEvent.timestamp events
    = [T0 + seconds 1; T0 + seconds 2; T0 + seconds 3] /\
    TestTimer.expired self' = true.
Proof.
  intros Hmin Hmax. eexists _, _. split.
  - fire_step. fire_step. fire_step.
    apply advances_done. left. reflexivity.
  - cbn. split; [reflexivity | split; [|reflexivity]].
    unfold seconds. repeat (apply (f_equal2 cons); [lia|]). reflexivity.
Qed.

(** The same timer without a stop time, advanced to [T0 + 3.5s]. *)
Lemma scenario_without_stop (T0 : datetime) (name : string)
    (callback : Callback) (uuids : nat -> UUID) :
  datetime_min <= T0 ->
  T0 + seconds 4 <= datetime_max ->
  exists events self',
    advances (T0 + milliseconds 3500)
      (TestTimer.mk
         (Timer.mk name callback (seconds 1) T0 (T0 + seconds 1) None false)
         (UUIDFactory.__init__ uuids))
      events self' /\
    length events = 3%nat /\
    map TimeEvent.timestamp events
    = [T0 + seconds 1; T0 + seconds 2; T0 + seconds 3].
Proof.
  intros Hmin Hmax. eexists _, _. split.
  - fire_step. fire_step. fire_step.
    apply advances_done. right. cbn. unfold seconds, milliseconds. lia.
  - cbn. split; [reflexivity|].
    unfold seconds. repeat (apply (f_equal2 cons); [lia|]). reflexivity.
Qed.

Lemma epoch_in_range (n : Z) :
  0 <= n <= 1000 ->
  datetime_min <= 0 /\ 0 + seconds n <= datetime_max /\
  is_datetime (0 + seconds n).
Proof.
  unfold is_datetime, datetime_min, datetime_max, seconds. lia.
Qed.

(** C1: the timer with interval 1s, start time [T0] and stop time
    [T0 + 2.5s], advanced once to [T0 + 10s] (both of them [datetime]s),
    returns three events, at [T0 + 1s], [T0 + 2s] and [T0 + 3s], and is
    left expired: the stop time is tested against the fire point just
    handed out, so the fire point that follows the stop time still gets
    its event. *)
Theorem C1_stop_between_fire_points (T0 : datetime) (name : string)
    (callback : Callback) (uuids : nat -> UUID) (extra : nat) :
  name <> "" ->
  datetime_min <= T0 ->
  T0 + seconds 10 <= datetime_max ->
  exists self events self',
    TestTimer.__init__ name callback (seconds 1) T0
                       (Some (T0 + milliseconds 2500)) uuids = Returns self /\
    TestTimer.advance (3 + extra) (Some (T0 + seconds 10)) self
    = (Returns events, self') /\
    map TimeEvent.timestamp events
    = [T0 + seconds 1; T0 + seconds 2; T0 + seconds 3] /\
    TestTimer.expired self' = true.
Proof.
  intros Hname Hmin Hmax.
  destruct (scenario_with_stop T0 name callback uuids Hmin Hmax)
    as (events & self' & Hadv & Hlen & Hts & Hexp).
  eexists _, events, self'. split; [|split; [|split]].
  - rewrite TestTimer_init_eq, Timer_init_accepted; [reflexivity | |].
    + split; [exact Hname | split; [reflexivity|]].
      intros stop [= <-]. unfold seconds, milliseconds. lia.
    + unfold is_datetime, datetime_min, datetime_max, seconds in *. lia.
  - apply advance_run; [exact Hadv | exact Hname | lia].
  - exact Hts.
  - exact Hexp.
Qed.

Lemma C1_stop_between_fire_points_witness :
  exists events self',
    TestTimer.advance 3 (Some (seconds 10))
                      (fresh_timer (Some (milliseconds 2500)))
    = (Returns events, self') /\
    map TimeEvent.timestamp events = [seconds 1; seconds 2; seconds 3] /\
    TestTimer.expired self' = true.
Proof.
  assert (Hname : "TEST_TIMER" <> "") by discriminate.
  destruct (epoch_in_range 10) as (Hmin & Hmax & _); [lia|].
  destruct (C1_stop_between_fire_points 0 "TEST_TIMER" 0%nat (fun n => n) 0
              Hname Hmin Hmax)
    as (self & events & self' & Hinit & Hadv & Hts & Hexp).
  injection Hinit as <-.
  exists events, self'. split; [exact Hadv | split; [exact Hts | exact Hexp]].
Defined.

(** C3 (amended): on a timer that is not expired, when [to_time + interval]
    does not pass [datetime.max], [advance(to_time)] returns events at the
    consecutive fire points [next_time], [next_time + interval], ... in
    that order, none of them after [to_time], and among them one for each
    fire point that is neither after [to_time] nor after the stop time;
    with no stop time that is one for each fire point up to [to_time].
    When an event is due and the fire point after it passes
    [datetime.max], [advance] raises [OverflowError].  The timer with
    interval 1s, start time [T0] and no stop time, [T0 + 4s] being a
    [datetime], returns from [advance(T0 + 3.5s)] exactly the three events
    at [T0 + 1s], [T0 + 2s], [T0 + 3s]. *)
Theorem C3_advance_fires_due_points :
  (forall (self : TestTimer.t) (to_time : datetime),
     valid (TestTimer.base self) ->
     TestTimer.expired self = false ->
     datetime_min <= TestTimer.next_time self ->
     to_time + Timer.interval (TestTimer.base self) <= datetime_max ->
     exists events self',
       (forall fuel, (length events <= fuel)%nat ->
          TestTimer.advance fuel (Some to_time) self
          = (Returns events, self')) /\
       map TimeEvent.timestamp events
       = fire_points (TestTimer.next_time self)
                     (Timer.interval (TestTimer.base self))
                     (length events) /\
       (forall i : nat,
          (i < length events)%nat -> fire_point self i <= to_time) /\
       (forall i : nat,
          fire_point self i <= to_time ->
          within_stop self (fire_point self i) ->
          (i < length events)%nat) /\
       (Timer.stop_time (TestTimer.base self) = None ->
        forall i : nat,
          (i < length events)%nat <-> fire_point self i <= to_time)) /\
  (forall (self : TestTimer.t) (to_time : datetime) (fuel : nat),
     valid (TestTimer.base self) ->
     TestTimer.expired self = false ->
     TestTimer.next_time self <= to_time ->
     ~ is_datetime (TestTimer.next_time self
                    + Timer.interval (TestTimer.base self)) ->
     (1 <= fuel)%nat ->
     fst (TestTimer.advance fuel (Some to_time) self)
     = Raises (OverflowError "date value out of range")) /\
  (forall (T0 : datetime) (name : string) (callback : Callback)
          (uuids : nat -> UUID),
     name <> "" ->
     datetime_min <= T0 ->
     T0 + seconds 4 <= datetime_max ->
     exists self events self',
       TestTimer.__init__ name callback (seconds 1) T0 None uuids
       = Returns self /\
       (forall fuel, (3 <= fuel)%nat ->
          TestTimer.advance fuel (Some (T0 + milliseconds 3500)) self
          = (Returns events, self')) /\
       map TimeEvent.timestamp events
       = [T0 + seconds 1; T0 + seconds 2; T0 + seconds 3]).
Proof.
  split; [|split].
  - intros self to_time (Hname & Hpos & _) Hlive Hmin Hmax.
    destruct (advances_total to_time self Hpos Hmin Hmax)
      as (events & self' & Hadv).
    exists events, self'.
    assert (Hcomplete := advances_complete _ _ _ _ Hadv Hpos Hlive).
    assert (Hsound := advances_sound _ _ _ _ Hadv).
    split; [|split; [|split; [|split]]].
    + intros fuel Hfuel. apply advance_run; assumption.
    + exact (proj1 (advances_events _ _ _ _ Hadv)).
    + exact Hsound.
    + exact Hcomplete.
    + intros Hnone i. split; [apply Hsound|].
      intros Hdue. apply Hcomplete; [exact Hdue|].
      intros stop Hstop. congruence.
  - intros self to_time fuel (Hname & _) Hlive Hdue Hout Hfuel.
    apply in_datetime_range_false in Hout.
    unfold TestTimer.advance, bind, lift. cbn [Condition.not_none].
    destruct fuel as [|fuel]; [lia|]. cbn [TestTimer.advance_loop].
    rewrite (loop_guard_true _ _ Hlive Hdue),
      (advance_body_overflows _ Hname Hout). reflexivity.
  - intros T0 name callback uuids Hname Hmin Hmax.
    destruct (scenario_without_stop T0 name callback uuids Hmin Hmax)
      as (events & self' & Hadv & Hlen & Hts).
    eexists _, events, self'. split; [|split].
    + rewrite TestTimer_init_eq, Timer_init_accepted; [reflexivity | |].
      * split; [exact Hname | split; [reflexivity | discriminate]].
      * unfold is_datetime, datetime_min, datetime_max, seconds in *. lia.
    + intros fuel Hfuel. apply advance_run; [exact Hadv | exact Hname | lia].
    + exact Hts.
Qed.

Lemma fresh_timer_valid (stop_time : option datetime) :
  (forall stop, stop_time = Some stop -> seconds 1 <= stop) ->
  valid (TestTimer.base (fresh_timer stop_time)).
Proof.
  intros Hs. split; [discriminate | split; [reflexivity|]].
  intros stop E. cbn in *. apply Hs. exact E.
Qed.

Lemma fresh_timer_in_range (stop_time : option datetime) (to_time : Z) :
  0 <= to_time <= seconds 1000 ->
  datetime_min <= TestTimer.next_time (fresh_timer stop_time) /\
  to_time + Timer.interval (TestTimer.base (fresh_timer stop_time))
  <= datetime_max.
Proof.
  unfold datetime_min, datetime_max, seconds. cbn. lia.
Qed.

Lemma C3_advance_fires_due_points_witness :
  valid (TestTimer.base (fresh_timer None)) /\
  TestTimer.expired (fresh_timer None) = false /\
  exists events self',
    TestTimer.advance 3 (Some (milliseconds 3500)) (fresh_timer None)
    = (Returns events, self') /\
    length events = 3%nat.
Proof.
  assert (Hv : valid (TestTimer.base (fresh_timer None))).
  { apply fresh_timer_valid. discriminate. }
  split; [exact Hv | split; [reflexivity|]].
  destruct (fresh_timer_in_range None (milliseconds 3500)) as [Hmin Hmax].
  { unfold milliseconds, seconds. lia. }
  destruct (proj1 C3_advance_fires_due_points (fresh_timer None)
              (milliseconds 3500) Hv eq_refl Hmin Hmax)
    as (events & self' & Hrun & Hts & Hsound & Hcomplete & Hexact).
  assert (H2 : (2 < length events)%nat).
  { apply Hcomplete; [vm_compute; discriminate | discriminate]. }
  assert (H3 : ~ (3 < length events)%nat).
  { intros H. apply Hsound in H. vm_compute in H. apply H. reflexivity. }
  exists events, self'. split; [apply Hrun; lia | lia].
Defined.

(** Where the unamended sentence fails.  The timer with interval 1s, start
    time 0 and stop time 2s, advanced to 5s, returns the two events at 1s
    and 2s; the fire point 3s is not after 5s and has no event.  The timer
    with interval one day and start time 9999-12-30, advanced to
    [datetime.max], has its fire point 9999-12-31 due, and raises. *)
Lemma C3_counterexample :
  (TestTimer.__init__ "TEST_TIMER" 0%nat (seconds 1) 0 (Some (seconds 2))
                      (fun n => n)
   = Returns (fresh_timer (Some (seconds 2))) /\
   ~ every_due_point_fires (fresh_timer (Some (seconds 2))) (seconds 5)) /\
  (TestTimer.__init__ "TEST_TIMER" 0%nat one_day last_day_but_one None
                      (fun n => n)
   = Returns late_test_timer /\
   fire_point late_test_timer 0 <= datetime_max /\
   forall fuel, (1 <= fuel)%nat ->
     fst (TestTimer.advance fuel (Some datetime_max) late_test_timer)
     = Raises (OverflowError "date value out of range")).
Proof.
  split; split; [reflexivity | | reflexivity | split].
  - intros H.
    specialize (H 5%nat _ _ eq_refl 2%nat).
    vm_compute in H.
    assert (Hlt : (3 <= 2)%nat) by (apply H; discriminate).
    lia.
  - vm_compute. discriminate.
  - intros fuel Hfuel. destruct fuel as [|fuel]; [lia|].
    unfold TestTimer.advance, bind, lift. cbn [Condition.not_none].
    cbn [TestTimer.advance_loop].
    rewrite loop_guard_true;
      [| reflexivity | vm_compute; discriminate].
    rewrite advance_body_overflows; [reflexivity | discriminate | reflexivity].
Qed.

(** C4: on a timer that satisfies the class invariant, [advance(T1)]
    followed by [advance(T2)], [T1 <= T2], leaves the same [Timer] fields
    ([next_time] and [expired] among them) as a single [advance(T2)] on a
    timer with the same fields, whether the calls return or raise; when
    the two calls in a row return, so does the single call, with the
    events of the two lists, one list after the other, up to their
    identifiers; and all three return when [T2 + interval] does not pass
    [datetime.max]. *)
Theorem C4_advance_in_two_steps (self other : TestTimer.t)
    (T1 T2 : datetime) :
  valid (TestTimer.base self) ->
  TestTimer.base other = TestTimer.base self ->
  T1 <= T2 ->
  exists (n : nat) (r1 r2 r : outcome (list TimeEvent.t))
         (self1 self2 other' : TestTimer.t),
    (forall fuel, (n <= fuel)%nat ->
       TestTimer.advance fuel (Some T1) self = (r1, self1) /\
       TestTimer.advance fuel (Some T2) self1 = (r2, self2) /\
       TestTimer.advance fuel (Some T2) other = (r, other')) /\
    (r1 <> OutOfFuel /\ r2 <> OutOfFuel /\ r <> OutOfFuel) /\
    TestTimer.base other' = TestTimer.base self2 /\
    (forall events1 events2,
       r1 = Returns events1 -> r2 = Returns events2 ->
       exists events,
         r = Returns events /\
         map TimeEvent.name events
         = map TimeEvent.name (events1 ++ events2) /\
         map TimeEvent.timestamp events
         = map TimeEvent.timestamp (events1 ++ events2)) /\
    (datetime_min <= TestTimer.next_time self ->
     T2 + Timer.interval (TestTimer.base self) <= datetime_max ->
     exists events1 events2, r1 = Returns events1 /\ r2 = Returns events2).
Proof.
  intros (Hname & Hpos & _) Hb Hle.
  destruct (advance_outcome T1 self Hname Hpos)
    as (n1 & r1 & self1 & Hrun1 & Hfuel1 & Hset1 & Hret1).
  destruct (settles_frame _ _ _ Hset1) as [Fn Fi].
  destruct (advance_outcome T2 self1) as
    (n2 & r2 & self2 & Hrun2 & Hfuel2 & Hset2 & Hret2);
    [rewrite Fn; exact Hname | rewrite Fi; exact Hpos |].
  destruct (advance_outcome T2 other) as
    (n3 & r & other' & Hrun3 & Hfuel3 & Hset3 & Hret3);
    [rewrite Hb; exact Hname | rewrite Hb; exact Hpos |].
  exists (n1 + n2 + n3)%nat, r1, r2, r, self1, self2, other'.
  split; [|split; [|split; [|split]]].
  - intros fuel Hfuel.
    rewrite Hrun1, Hrun2, Hrun3 by lia. repeat split.
  - repeat split; assumption.
  - rewrite Hb in Hset3.
    exact (settles_functional _ _ _ _ Hset3
             (settles_trans _ _ _ _ _ Hle Hset1 Hset2)).
  - intros events1 events2 E1 E2.
    assert (Hall := advances_split _ _ _ _ _ _ _ Hle
                      (Hret1 _ E1) (Hret2 _ E2)).
    destruct (advances_same_base _ _ _ _ Hall other Hb)
      as (events & other2 & Hadv & _ & Hn & Ht).
    exists events. split; [|split; assumption].
    assert (Hrun : TestTimer.advance (n3 + length events) (Some T2) other
                   = (Returns events, other2)).
    { apply advance_run; [exact Hadv | rewrite Hb; exact Hname | lia]. }
    rewrite Hrun3 in Hrun by lia. injection Hrun as -> _. reflexivity.
  - intros Hmin Hmax.
    destruct (advances_total T1 self Hpos Hmin) as (events1 & s1 & Hadv1);
      [lia|].
    assert (E1 : TestTimer.advance (n1 + length events1) (Some T1) self
                 = (Returns events1, s1)).
    { apply advance_run; [exact Hadv1 | exact Hname | lia]. }
    rewrite Hrun1 in E1 by lia. injection E1 as -> ->.
    destruct (advances_frame _ _ _ _ Hadv1) as (_ & _ & _ & _ & _ & Hnext).
    cbv zeta in Hnext. fold (TestTimer.next_time s1) in Hnext.
    destruct (advances_total T2 s1) as (events2 & s2 & Hadv2).
    + rewrite Fi. exact Hpos.
    + rewrite Hnext. unfold fire_point. nia.
    + rewrite Fi. exact Hmax.
    + assert (E2 : TestTimer.advance (n2 + length events2) (Some T2) s1
                   = (Returns events2, s2)).
      { apply advance_run; [exact Hadv2 | rewrite Fn; exact Hname | lia]. }
      rewrite Hrun2 in E2 by lia. injection E2 as -> _.
      exists events1, events2. split; reflexivity.
Qed.

Lemma fresh_stop_valid :
  valid (TestTimer.base (fresh_timer (Some (milliseconds 2500)))).
Proof.
  apply fresh_timer_valid. intros stop [= <-]. vm_compute. discriminate.
Qed.

Lemma C4_advance_in_two_steps_witness :
  valid (TestTimer.base (fresh_timer (Some (milliseconds 2500)))) /\
  milliseconds 1500 <= seconds 10 /\
  exists (n : nat) (events1 events2 events : list TimeEvent.t)
         (self1 self2 other' : TestTimer.t),
    (forall fuel, (n <= fuel)%nat ->
       TestTimer.advance fuel (Some (milliseconds 1500))
                         (fresh_timer (Some (milliseconds 2500)))
       = (Returns events1, self1) /\
       TestTimer.advance fuel (Some (seconds 10)) self1
       = (Returns events2, self2) /\
       TestTimer.advance fuel (Some (seconds 10))
                         (fresh_timer (Some (milliseconds 2500)))
       = (Returns events, other')) /\
    TestTimer.base other' = TestTimer.base self2 /\
    map TimeEvent.timestamp events
    = map TimeEvent.timestamp (events1 ++ events2).
Proof.
  assert (Hle : milliseconds 1500 <= seconds 10) by (vm_compute; discriminate).
  split; [exact fresh_stop_valid | split; [exact Hle|]].
  destruct (C4_advance_in_two_steps
              (fresh_timer (Some (milliseconds 2500)))
              (fresh_timer (Some (milliseconds 2500)))
              (milliseconds 1500) (seconds 10)
              fresh_stop_valid eq_refl Hle)
    as (n & r1 & r2 & r & self1 & self2 & other' & Hrun & _ & Hbase
        & Hlists & Hrange).
  destruct (fresh_timer_in_range (Some (milliseconds 2500)) (seconds 10))
    as [Hmin Hmax]; [unfold seconds; lia|].
  destruct (Hrange Hmin Hmax) as (events1 & events2 & -> & ->).
  destruct (Hlists events1 events2 eq_refl eq_refl)
    as (events & -> & _ & Hts).
  exists n, events1, events2, events, self1, self2, other'.
  split; [exact Hrun | split; [exact Hbase | exact Hts]].
Defined.

(* ------------------------------------------------------------------ *)
(** ** Expired timers *)

Lemma advance_loop_expired (fuel : nat) (to_time : datetime)
    (acc : list TimeEvent.t) (self : TestTimer.t) :
  TestTimer.expired self = true ->
  TestTimer.advance_loop fuel to_time acc self = (Returns acc, self).
Proof.
  intros He.
  destruct fuel; cbn [TestTimer.advance_loop];
    rewrite (loop_guard_false to_time self (or_introl He)); reflexivity.
Qed.

Lemma advance_expired (fuel : nat) (to_time : datetime)
    (self : TestTimer.t) :
  TestTimer.expired self = true ->
  TestTimer.advance fuel (Some to_time) self = (Returns [], self).
Proof.
  intros He. unfold TestTimer.advance, bind, lift. cbn [Condition.not_none].
  apply advance_loop_expired. exact He.
Qed.

(** C2: on an expired timer that satisfies the class invariant,
    [advance(to_time)] returns the empty list for every [to_time] and
    leaves the timer as it was; [pop_next_event()] does not look at the
    expired flag: when [next_time + interval] is a [datetime] it returns
    one event, stamped with the current [next_time], and moves [next_time]
    on by one interval; when it is not, it raises [OverflowError]. *)
Theorem C2_expired_advance_empty_pop_fires (self : TestTimer.t) :
  valid (TestTimer.base self) ->
  TestTimer.expired self = true ->
  (forall fuel to_time,
     TestTimer.advance fuel (Some to_time) self = (Returns [], self)) /\
  (let b := TestTimer.base self in
   is_datetime (Timer.next_time b + Timer.interval b) ->
   TestTimer.pop_next_event self
   = (Returns (TimeEvent.mk (Timer.name b) (next_id self)
                            (Timer.next_time b)),
      TestTimer.mk
        (Timer.mk (Timer.name b) (Timer.callback b) (Timer.interval b)
                  (Timer.start_time b)
                  (Timer.next_time b + Timer.interval b)
                  (Timer.stop_time b) true)
        (TestTimer._uuid_factory (drawn self)))) /\
  (let b := TestTimer.base self in
   ~ is_datetime (Timer.next_time b + Timer.interval b) ->
   TestTimer.pop_next_event self
   = (Raises (OverflowError "date value out of range"), drawn self)).
Proof.
  intros (Hname & _) He. split; [|split].
  - intros fuel to_time. apply advance_expired. exact He.
  - cbv zeta. intros Hr. apply in_datetime_range_true in Hr.
    rewrite (pop_next_event_fire self Hname Hr).
    unfold fire, moved. cbn [fst snd].
    unfold TestTimer.expired in He. rewrite He.
    destruct (stop_reached _ _); reflexivity.
  - cbv zeta. intros Hr. apply in_datetime_range_false in Hr.
    exact (advance_body_overflows self Hname Hr).
Qed.

Lemma cancelled_timer_valid : valid (TestTimer.base cancelled_timer).
Proof.
  split; [discriminate | split; [reflexivity | discriminate]].
Qed.

Lemma C2_expired_advance_empty_pop_fires_witness :
  valid (TestTimer.base cancelled_timer) /\
  TestTimer.expired cancelled_timer = true /\
  TestTimer.advance 0 (Some (seconds 10)) cancelled_timer
  = (Returns [], cancelled_timer) /\
  fst (TestTimer.pop_next_event cancelled_timer)
  = Returns (TimeEvent.mk "TEST_TIMER" 0%nat (seconds 1)).
Proof.
  split; [exact cancelled_timer_valid | split; [reflexivity | split]].
  - exact (proj1 (C2_expired_advance_empty_pop_fires cancelled_timer
                    cancelled_timer_valid eq_refl) 0%nat (seconds 10)).
  - rewrite (proj1 (proj2 (C2_expired_advance_empty_pop_fires cancelled_timer
                             cancelled_timer_valid eq_refl))).
    + reflexivity.
    + unfold is_datetime, datetime_min, datetime_max. cbn. lia.
Defined.

(** The cancelled timer is expired, and [pop_next_event()] on it yields an
    event. *)
Lemma cancelled_timer_still_fires :
  TestTimer.expired cancelled_timer = true /\
  ~ pop_next_event_yields_nothing cancelled_timer.
Proof.
  split; [reflexivity|].
  unfold pop_next_event_yields_nothing. vm_compute. discriminate.
Qed.

(* ------------------------------------------------------------------ *)
(** ** Properties kept by every call *)

Lemma pop_event_cases (event_id : option UUID) (self : Timer.t) :
  (exists e, Timer.pop_event event_id self = (Returns e, self)) \/
  (exists x, Timer.pop_event event_id self = (Raises x, self)).
Proof.
  unfold Timer.pop_event, bind, lift, get, TimeEvent.__init__,
    Condition.valid_string.
  destruct event_id as [event_id|]; cbn [Condition.not_none].
  - destruct (String.eqb (Timer.name self) ""); cbn [obind]; eauto.
  - eauto.
Qed.

Lemma advance_body_cases (self : TestTimer.t) :
  (can_move (TestTimer.base self) = true /\
   TestTimer.advance_body self
   = (Returns (fst (fire self)), snd (fire self))) \/
  (exists x, TestTimer.advance_body self = (Raises x, drawn self)).
Proof.
  destruct (String.eqb_spec (Timer.name (TestTimer.base self)) "")
    as [Hempty | Hname].
  - right. destruct self as [b f]. cbn [TestTimer.base] in Hempty.
    cbv [TestTimer.advance_body bind TestTimer.on_uuid_factory TestTimer.super
         UUIDFactory.generate TestTimer.base TestTimer._uuid_factory].
    unfold Timer.pop_event, bind, lift, get, TimeEvent.__init__.
    cbn [Condition.not_none]. rewrite Hempty, valid_string_empty.
    cbn [obind]. eauto.
  - destruct (can_move (TestTimer.base self)) eqn:Hmove.
    + left. split; [reflexivity|]. apply advance_body_fire; assumption.
    + right. rewrite (advance_body_overflows _ Hname Hmove). eauto.
Qed.

Section Preservation.

(** A property of timers kept by the elementary changes a call is made
    of: drawing an identifier, moving [next_time] on (with whatever [now]
    the caller passes), cancelling. *)
Variable P : TestTimer.t -> Prop.

Hypothesis P_generate : forall self, P self -> P (drawn self).

Hypothesis P_iterate :
  forall self now,
    P self ->
    P (TestTimer.mk
         (snd (Timer.iterate_next_time (Some now) (TestTimer.base self)))
         (TestTimer._uuid_factory self)).

Hypothesis P_cancel :
  forall self, P self -> P (snd (TestTimer.cancel self)).

Lemma fire_preserves (self : TestTimer.t) :
  can_move (TestTimer.base self) = true -> P self -> P (snd (fire self)).
Proof.
  intros Hmove H.
  apply P_generate in H.
  apply (P_iterate _ (TestTimer.next_time self)) in H.
  cbn [drawn TestTimer.base] in H.
  unfold TestTimer.next_time in H.
  rewrite (iterate_next_time_moved _ Hmove) in H. exact H.
Qed.

Lemma advance_body_preserves (self : TestTimer.t) :
  P self -> P (snd (TestTimer.advance_body self)).
Proof.
  intros H.
  destruct (advance_body_cases self) as [[Hmove ->] | [x ->]]; cbn [snd].
  - apply fire_preserves; assumption.
  - apply P_generate. exact H.
Qed.

Lemma advance_loop_preserves (fuel : nat) (to_time : datetime) :
  forall (acc : list TimeEvent.t) (self : TestTimer.t),
    P self -> P (snd (TestTimer.advance_loop fuel to_time acc self)).
Proof.
  induction fuel as [|fuel IH]; intros acc self H;
    cbn [TestTimer.advance_loop];
    destruct (negb (TestTimer.expired self)
              && (to_time >=? TestTimer.next_time self));
    try exact H.
  assert (Hb := advance_body_preserves self H).
  destruct (TestTimer.advance_body self) as [[e | x |] self1];
    cbn [snd] in *; [apply IH | ..]; exact Hb.
Qed.

Lemma invoke_preserves (fuel : nat) (c : call) (self : TestTimer.t) :
  P self -> P (snd (invoke fuel c self)).
Proof.
  intros H. destruct c as [event_id | now | to_time | |];
    unfold invoke, bind, ret.
  - unfold TestTimer.super.
    destruct (pop_event_cases event_id (TestTimer.base self))
      as [[e ->] | [x ->]]; destruct self; exact H.
  - destruct now as [now|].
    + specialize (P_iterate self now H). unfold TestTimer.super.
      destruct (Timer.iterate_next_time (Some now) (TestTimer.base self))
        as [[[] | x |] b]; exact P_iterate.
    + destruct self; exact H.
  - destruct to_time as [to_time|].
    + unfold TestTimer.advance, bind, lift. cbn [Condition.not_none].
      assert (Hl := advance_loop_preserves fuel to_time [] self H).
      destruct (TestTimer.advance_loop fuel to_time [] self)
        as [[l | x |] self1]; exact Hl.
    + exact H.
  - assert (Hb := advance_body_preserves self H).
    change TestTimer.pop_next_event with TestTimer.advance_body.
    destruct (TestTimer.advance_body self) as [[e | x |] self1]; exact Hb.
  - apply P_cancel. exact H.
Qed.

End Preservation.

(** What [iterate_next_time] leaves, either way. *)
Lemma iterate_next_time_cases (self : Timer.t) (now : datetime) :
  (can_move self = true /\
   snd (Timer.iterate_next_time (Some now) self)
   = Timer.mk (Timer.name self) (Timer.callback self) (Timer.interval self)
              (Timer.start_time self)
              (Timer.next_time self + Timer.interval self)
              (Timer.stop_time self)
              (if stop_reached self now then true else Timer.expired self)) \/
  (can_move self = false /\
   snd (Timer.iterate_next_time (Some now) self) = self).
Proof.
  destruct (can_move self) eqn:Hmove.
  - left. rewrite (iterate_next_time_moves _ _ Hmove). auto.
  - right. rewrite (iterate_next_time_overflows _ _ Hmove). auto.
Qed.

Lemma invoke_keeps_expired (fuel : nat) (c : call) (self : TestTimer.t) :
  TestTimer.expired self = true ->
  TestTimer.expired (snd (invoke fuel c self)) = true.
Proof.
  apply (invoke_preserves (fun s => TestTimer.expired s = true)).
  - intros s H. exact H.
  - intros s now H. unfold TestTimer.expired in *. cbn [TestTimer.base].
    destruct (iterate_next_time_cases (TestTimer.base s) now)
      as [[_ ->] | [_ ->]]; [|exact H].
    cbn. rewrite H. destruct (stop_reached _ _); reflexivity.
  - intros s _. reflexivity.
Qed.

Lemma run_cons (fuel : nat) (c : call) (calls : list call)
    (self : TestTimer.t) :
  run fuel (c :: calls) self
  = ((c, fst (invoke fuel c self))
       :: fst (run fuel calls (snd (invoke fuel c self))),
     snd (run fuel calls (snd (invoke fuel c self)))).
Proof.
  cbn [run]. destruct (invoke fuel c self) as [r self1]. cbn [fst snd].
  destruct (run fuel calls self1). reflexivity.
Qed.

Lemma run_preserves (P : TestTimer.t -> Prop) (fuel : nat) :
  (forall c s, P s -> P (snd (invoke fuel c s))) ->
  forall (calls : list call) (self : TestTimer.t),
    P self -> P (snd (run fuel calls self)).
Proof.
  intros Hstep. induction calls as [|c calls IH]; intros self Hs.
  - exact Hs.
  - rewrite run_cons. cbn [snd]. apply IH. apply Hstep. exact Hs.
Qed.

Lemma run_expired (fuel : nat) (calls : list call) :
  forall self : TestTimer.t,
    TestTimer.expired self = true ->
    TestTimer.expired (snd (run fuel calls self)) = true /\
    forall to_time r,
      In (Advance (Some to_time), r) (fst (run fuel calls self)) ->
      r = Returns (Events []).
Proof.
  induction calls as [|c calls IH]; intros self He.
  - split; [exact He | intros to_time r []].
  - rewrite run_cons. cbn [fst snd].
    destruct (IH _ (invoke_keeps_expired fuel c self He)) as [IHe IHr].
    split; [exact IHe|].
    intros to_time r [Hhead | Htail].
    + injection Hhead as -> <-.
      unfold invoke, bind. rewrite (advance_expired _ _ _ He). reflexivity.
    + exact (IHr _ _ Htail).
Qed.

(** C5: both ways of expiring set the flag ([iterate_next_time] at or after
    the stop time, when it returns, and [cancel]); from an expired timer,
    whatever calls follow, the timer stays expired and every
    [advance(to_time)] among them returns the empty list; and [cancel()] on
    a cancelled timer returns as the first did and leaves the timer as the
    first left it. *)
Theorem C5_expired_is_absorbing :
  (forall (self : Timer.t) (now stop : datetime),
     Timer.stop_time self = Some stop -> stop <= now ->
     is_datetime (Timer.next_time self + Timer.interval self) ->
     Timer.expired (snd (Timer.iterate_next_time (Some now) self)) = true) /\
  (forall self : TestTimer.t,
     TestTimer.expired (snd (TestTimer.cancel self)) = true) /\
  (forall (self : TestTimer.t) (fuel : nat) (calls : list call),
     TestTimer.expired self = true ->
     TestTimer.expired (snd (run fuel calls self)) = true /\
     forall to_time r,
       In (Advance (Some to_time), r) (fst (run fuel calls self)) ->
       r = Returns (Events [])) /\
  (forall self : TestTimer.t,
     TestTimer.cancel self = (Returns tt, snd (TestTimer.cancel self)) /\
     TestTimer.cancel (snd (TestTimer.cancel self))
     = (Returns tt, snd (TestTimer.cancel self))).
Proof.
  split; [|split; [|split]].
  - intros self now stop Hs Hle Hr. apply in_datetime_range_true in Hr.
    rewrite (iterate_next_time_moves _ _ Hr).
    unfold stop_reached. rewrite Hs. cbn.
    destruct (Z.geb_spec now stop); [reflexivity | lia].
  - reflexivity.
  - intros self fuel calls He. apply run_expired. exact He.
  - intros self. split; reflexivity.
Qed.

Lemma C5_expired_is_absorbing_witness :
  TestTimer.expired cancelled_timer = true /\
  TestTimer.expired
    (snd (run 5 [Advance (Some (seconds 3)); PopNextEvent; Cancel;
                 Advance (Some (seconds 100))] cancelled_timer)) = true /\
  fst (run 5 [Advance (Some (seconds 3)); PopNextEvent; Cancel;
              Advance (Some (seconds 100))] cancelled_timer)
  = [(Advance (Some (seconds 3)), Returns (Events []));
     (PopNextEvent,
      Returns (Event (TimeEvent.mk "TEST_TIMER" 0%nat (seconds 1))));
     (Cancel, Returns NoValue);
     (Advance (Some (seconds 100)), Returns (Events []))].
Proof.
  split; [reflexivity | split].
  - exact (proj1 (proj1 (proj2 (proj2 C5_expired_is_absorbing))
                    cancelled_timer 5%nat _ eq_refl)).
  - reflexivity.
Defined.

(* ------------------------------------------------------------------ *)
(** ** [next_time] *)

Lemma invoke_keeps (floor : datetime) (fuel : nat) (c : call)
    (self : TestTimer.t) :
  kept floor self -> kept floor (snd (invoke fuel c self)).
Proof.
  apply (invoke_preserves (kept floor)).
  - intros s H. exact H.
  - intros s now (Hv & (k & Hk & Hg) & Hf).
    cbn [TestTimer.base] in *.
    destruct (iterate_next_time_cases (TestTimer.base s) now)
      as [[_ E] | [_ E]]; rewrite E.
    + unfold kept, valid, on_grid.
      cbn [snd TestTimer.base TestTimer.next_time Timer.name Timer.interval
           Timer.start_time Timer.stop_time Timer.next_time].
      split; [exact Hv | split].
      * exists (k + 1). split; [lia|]. rewrite Hg. lia.
      * destruct Hv as (_ & Hpos & _). unfold TestTimer.next_time in Hf. lia.
    + split; [exact Hv | split; [exists k; auto | exact Hf]].
  - intros s H. exact H.
Qed.

Lemma init_kept (name : string) (callback : Callback) (interval : timedelta)
    (start_time : datetime) (stop_time : option datetime)
    (uuids : nat -> UUID) (self : TestTimer.t) :
  TestTimer.__init__ name callback interval start_time stop_time uuids
    = Returns self ->
  kept (start_time + interval) self.
Proof.
  intros H. apply TestTimer_init_returns in H as (Ha & _ & ->).
  split; [exact Ha | split].
  - exists 1.
    cbn [TestTimer.base Timer.next_time Timer.start_time Timer.interval].
    split; lia.
  - cbn [TestTimer.next_time TestTimer.base Timer.next_time]. lia.
Qed.

Lemma reachable_valid_on_grid (self : TestTimer.t) :
  reachable self ->
  valid (TestTimer.base self) /\ on_grid (TestTimer.base self).
Proof.
  induction 1 as [name callback interval start_time stop_time uuids self Hinit
                 | fuel c self Hreach IH].
  - destruct (init_kept _ _ _ _ _ _ _ Hinit) as (Hv & Hg & _).
    split; assumption.
  - destruct IH as [Hv Hg].
    destruct (invoke_keeps (TestTimer.next_time self) fuel c self)
      as (Hv' & Hg' & _).
    + split; [exact Hv | split; [exact Hg | lia]].
    + split; assumption.
Qed.

(** C8 (amended): a constructed timer has
    [next_time = start_time + interval]; every timer a program can reach
    from a constructed one has [next_time = start_time + k * interval] for
    some [k >= 1]; no call moves [next_time] back; an [iterate_next_time]
    call that returns adds exactly one interval, which moves [next_time]
    strictly forward; and one that would move [next_time] out of the range
    of [datetime] raises [OverflowError] and leaves the timer as it was. *)
Theorem C8_next_time_on_grid :
  (forall name callback interval start_time stop_time (self : Timer.t),
     Timer.__init__ name callback interval start_time stop_time
       = Returns self ->
     Timer.start_time self = start_time /\
     Timer.interval self = interval /\
     Timer.next_time self = start_time + interval) /\
  (forall self : TestTimer.t,
     reachable self -> on_grid (TestTimer.base self)) /\
  (forall (self : TestTimer.t) (fuel : nat) (c : call),
     reachable self ->
     TestTimer.next_time self
     <= TestTimer.next_time (snd (invoke fuel c self))) /\
  (forall (self : Timer.t) (now : datetime),
     is_datetime (Timer.next_time self + Timer.interval self) ->
     fst (Timer.iterate_next_time (Some now) self) = Returns tt /\
     Timer.next_time (snd (Timer.iterate_next_time (Some now) self))
     = Timer.next_time self + Timer.interval self) /\
  (forall (self : Timer.t) (now : datetime),
     valid self ->
     is_datetime (Timer.next_time self + Timer.interval self) ->
     Timer.next_time self
     < Timer.next_time (snd (Timer.iterate_next_time (Some now) self))) /\
  (forall (self : Timer.t) (now : datetime),
     ~ is_datetime (Timer.next_time self + Timer.interval self) ->
     Timer.iterate_next_time (Some now) self
     = (Raises (OverflowError "date value out of range"), self)).
Proof.
  split; [|split; [|split; [|split; [|split]]]].
  - intros name callback interval start_time stop_time self H.
    apply Timer_init_returns in H as (_ & _ & ->). repeat split.
  - intros self H. exact (proj2 (reachable_valid_on_grid self H)).
  - intros self fuel c H.
    destruct (reachable_valid_on_grid self H) as [Hv Hg].
    destruct (invoke_keeps (TestTimer.next_time self) fuel c self)
      as (_ & _ & Hle).
    + split; [exact Hv | split; [exact Hg | lia]].
    + exact Hle.
  - intros self now Hr. apply in_datetime_range_true in Hr.
    rewrite (iterate_next_time_moves _ _ Hr). split; reflexivity.
  - intros self now (_ & Hpos & _) Hr. apply in_datetime_range_true in Hr.
    rewrite (iterate_next_time_moves _ _ Hr). cbn. lia.
  - intros self now Hr. apply in_datetime_range_false in Hr.
    exact (iterate_next_time_overflows _ _ Hr).
Qed.

Lemma fresh_timer_reachable (stop_time : option datetime) :
  (forall stop, stop_time = Some stop -> seconds 1 <= stop) ->
  reachable (fresh_timer stop_time).
Proof.
  intros Hs.
  apply (reachable_init "TEST_TIMER" 0%nat (seconds 1) 0 stop_time
                        (fun n => n)).
  rewrite TestTimer_init_eq, Timer_init_accepted; [reflexivity | |].
  - split; [discriminate | split; [reflexivity|]].
    intros stop E. cbn. apply Hs. exact E.
  - exact (proj2 (proj2 (epoch_in_range 1 ltac:(lia)))).
Qed.

Lemma C8_next_time_on_grid_witness :
  reachable (snd (invoke 5 (Advance (Some (milliseconds 3500)))
                         (fresh_timer None))) /\
  on_grid (TestTimer.base
             (snd (invoke 5 (Advance (Some (milliseconds 3500)))
                          (fresh_timer None)))) /\
  TestTimer.next_time
    (snd (invoke 5 (Advance (Some (milliseconds 3500))) (fresh_timer None)))
  = 0 + 4 * seconds 1.
Proof.
  assert (Hr : reachable (snd (invoke 5 (Advance (Some (milliseconds 3500)))
                                      (fresh_timer None)))).
  { apply reachable_call. apply fresh_timer_reachable. discriminate. }
  split; [exact Hr | split].
  - exact (proj1 (proj2 C8_next_time_on_grid) _ Hr).
  - reflexivity.
Defined.

(** Where the unamended sentence fails: the timer of interval one day
    constructed with start time 9999-12-30 has [next_time] 9999-12-31;
    [iterate_next_time] on it raises and adds nothing. *)
Lemma C8_counterexample :
  Timer.__init__ "TEST_TIMER" 0%nat one_day last_day_but_one None
  = Returns late_timer /\
  is_datetime last_day /\
  ~ iterate_adds_one_interval late_timer last_day.
Proof.
  split; [reflexivity | split].
  - unfold is_datetime, datetime_min, datetime_max, last_day. lia.
  - unfold iterate_adds_one_interval. vm_compute. discriminate.
Qed.

(* ------------------------------------------------------------------ *)
(** ** More on [advance] *)

(** X1: on a live timer without a stop time, when [to_time + interval]
    does not pass [datetime.max], [advance(to_time)] returns
    [floor((to_time - next_time) / interval) + 1] events (none when that is
    not positive), moves [next_time] on by that many intervals, to the
    first fire point after [to_time], and leaves the timer live. *)
Theorem X1_advance_count_without_stop (self : TestTimer.t)
    (to_time : datetime) :
  valid (TestTimer.base self) ->
  TestTimer.expired self = false ->
  Timer.stop_time (TestTimer.base self) = None ->
  datetime_min <= TestTimer.next_time self ->
  to_time + Timer.interval (TestTimer.base self) <= datetime_max ->
  exists events self',
    (forall fuel, (length events <= fuel)%nat ->
       TestTimer.advance fuel (Some to_time) self = (Returns events, self')) /\
    length events
    = Z.to_nat ((to_time - TestTimer.next_time self)
                / Timer.interval (TestTimer.base self) + 1) /\
    TestTimer.next_time self'
    = TestTimer.next_time self
      + Z.of_nat (length events) * Timer.interval (TestTimer.base self) /\
    to_time < TestTimer.next_time self' /\
    (TestTimer.next_time self <= to_time ->
     TestTimer.next_time self'
     <= to_time + Timer.interval (TestTimer.base self)) /\
    TestTimer.expired self' = false.
Proof.
  intros (Hname & Hpos & _) Hlive Hnone Hmin Hmax.
  destruct (advances_total to_time self Hpos Hmin Hmax)
    as (events & self' & Hadv).
  exists events, self'.
  assert (Hsound := advances_sound _ _ _ _ Hadv).
  assert (Hcomplete : forall i : nat,
             fire_point self i <= to_time -> (i < length events)%nat).
  { intros i Hi. apply (advances_complete _ _ _ _ Hadv Hpos Hlive i Hi).
    intros stop Hs. congruence. }
  destruct (advances_frame _ _ _ _ Hadv) as (_ & _ & _ & _ & _ & Hnext).
  cbv zeta in Hnext. fold (TestTimer.next_time self') in Hnext.
  assert (Hx : TestTimer.expired self' = false).
  { destruct (TestTimer.expired self') eqn:E; [|reflexivity].
    apply (advances_expired_iff _ _ _ _ Hadv Hlive) in E
      as (stop & j & Hs & _). congruence. }
  assert (Hnot : ~ fire_point self (length events) <= to_time).
  { intros H. apply Hcomplete in H. lia. }
  set (i := Timer.interval (TestTimer.base self)) in *.
  set (d := to_time - TestTimer.next_time self).
  assert (Hlo := Z.mul_div_le d i Hpos).
  assert (Hhi := Z.mul_succ_div_gt d i Hpos).
  unfold fire_point in Hsound, Hnot, Hnext. fold i in Hsound, Hnot, Hnext.
  split; [|split; [|split; [|split; [|split]]]].
  - intros fuel Hfuel. apply advance_run; assumption.
  - destruct (length events) as [|m] eqn:Hlen.
    + assert (d / i + 1 <= 0) by (subst d; nia). lia.
    + assert (Hm := Hsound m (Nat.lt_succ_diag_r m)).
      assert (d / i = Z.of_nat m) by (subst d; nia). lia.
  - rewrite Hnext. reflexivity.
  - rewrite Hnext. lia.
  - intros Hdue. rewrite Hnext.
    destruct (length events) as [|m] eqn:Hlen; [lia|].
    assert (Hm := Hsound m (Nat.lt_succ_diag_r m)). lia.
  - exact Hx.
Qed.

Lemma X1_advance_count_without_stop_witness :
  valid (TestTimer.base (fresh_timer None)) /\
  exists events self',
    TestTimer.advance 3 (Some (milliseconds 3500)) (fresh_timer None)
    = (Returns events, self') /\
    length events = 3%nat /\
    TestTimer.next_time self' = seconds 4.
Proof.
  assert (Hv : valid (TestTimer.base (fresh_timer None))).
  { apply fresh_timer_valid. discriminate. }
  split; [exact Hv|].
  destruct (fresh_timer_in_range None (milliseconds 3500)) as [Hmin Hmax].
  { unfold milliseconds, seconds. lia. }
  destruct (X1_advance_count_without_stop (fresh_timer None)
              (milliseconds 3500) Hv eq_refl eq_refl Hmin Hmax)
    as (events & self' & Hrun & Hlen & Hnext & _).
  change (Z.to_nat _) with 3%nat in Hlen.
  exists events, self'. split; [apply Hrun; lia | split; [exact Hlen|]].
  rewrite Hnext, Hlen. reflexivity.
Defined.

(** X2: once [advance(T)] has returned, [advance(T')] with [T' <= T]
    returns no event and leaves the timer as it is. *)
Theorem X2_advance_again_returns_nothing (self self' : TestTimer.t)
    (T T' : datetime) (fuel fuel' : nat) (events : list TimeEvent.t) :
  valid (TestTimer.base self) ->
  T' <= T ->
  TestTimer.advance fuel (Some T) self = (Returns events, self') ->
  TestTimer.advance fuel' (Some T') self' = (Returns [], self').
Proof.
  intros (Hname & _) Hle Hrun.
  apply advance_sound in Hrun; [|exact Hname].
  destruct (advances_frame _ _ _ _ Hrun) as (Fn & _).
  apply advance_run with (events := []).
  - constructor. destruct (advances_exit _ _ _ _ Hrun) as [Hx | Hlt];
      [left; exact Hx | right; lia].
  - cbv zeta in Fn. rewrite Fn. exact Hname.
  - apply Nat.le_0_l.
Qed.

Lemma X2_advance_again_returns_nothing_witness :
  valid (TestTimer.base (fresh_timer None)) /\
  seconds 3 <= milliseconds 3500 /\
  TestTimer.advance 0 (Some (seconds 3))
    (snd (TestTimer.advance 5 (Some (milliseconds 3500)) (fresh_timer None)))
  = (Returns [],
     snd (TestTimer.advance 5 (Some (milliseconds 3500)) (fresh_timer None))).
Proof.
  assert (Hv : valid (TestTimer.base (fresh_timer None))).
  { apply fresh_timer_valid. discriminate. }
  assert (Hle : seconds 3 <= milliseconds 3500) by (vm_compute; discriminate).
  split; [exact Hv | split; [exact Hle|]].
  exact (X2_advance_again_returns_nothing (fresh_timer None) _
           (milliseconds 3500) (seconds 3) 5 0 _ Hv Hle eq_refl).
Defined.

Lemma StronglySorted_impl {A : Type} (R S : A -> A -> Prop) (l : list A) :
  (forall a b, R a b -> S a b) -> StronglySorted R l -> StronglySorted S l.
Proof.
  intros HRS. induction 1 as [|a l Hl IH Ha]; constructor.
  - exact IH.
  - eapply Forall_impl; [|exact Ha]. intros b. apply HRS.
Qed.

(** X3: the events one [advance] returns all carry the timer's name (so
    [TimeEvent.__eq__] holds between any two of them), are stamped between
    the timer's [next_time] and [to_time], and come in strictly increasing
    timestamp order: wrapped into handlers with the timer's callback, each
    one is [<] every later one. *)
Theorem X3_advance_events_named_and_sorted (self self' : TestTimer.t)
    (to_time : datetime) (fuel : nat) (events : list TimeEvent.t) :
  valid (TestTimer.base self) ->
  TestTimer.advance fuel (Some to_time) self = (Returns events, self') ->
  Forall (fun e =>
            TimeEvent.name e = Timer.name (TestTimer.base self) /\
            TestTimer.next_time self <= TimeEvent.timestamp e <= to_time)
         events /\
  (forall e1 e2, In e1 events -> In e2 events ->
                 TimeEvent.__eq__ e1 e2 = true) /\
  StronglySorted
    (fun e1 e2 =>
       let callback := Timer.callback (TestTimer.base self) in
       TimeEventHandler.__lt__ (TimeEventHandler.__init__ e1 callback)
                               (TimeEventHandler.__init__ e2 callback)
       = true)
    events.
Proof.
  intros (Hname & Hpos & _) Hrun.
  apply advance_sound in Hrun; [|exact Hname].
  destruct (advances_events _ _ _ _ Hrun) as [_ Hnames].
  destruct (advances_increasing _ _ _ _ Hrun Hpos) as [Hfrom Hsorted].
  assert (Hdue := advances_due _ _ _ _ Hrun).
  rewrite Forall_forall in Hnames, Hfrom, Hdue.
  split; [|split].
  - apply Forall_forall. intros e He.
    split; [apply Hnames | split; [apply Hfrom | apply Hdue]]; exact He.
  - intros e1 e2 H1 H2. unfold TimeEvent.__eq__.
    rewrite (Hnames _ H1), (Hnames _ H2). apply String.eqb_refl.
  - eapply StronglySorted_impl; [|exact Hsorted].
    intros a b Hab. cbv zeta. unfold TimeEventHandler.__lt__. cbn.
    apply Z.ltb_lt. exact Hab.
Qed.

Lemma X3_advance_events_named_and_sorted_witness :
  valid (TestTimer.base (fresh_timer None)) /\
  Forall (fun e =>
            TimeEvent.name e = "TEST_TIMER" /\
            seconds 1 <= TimeEvent.timestamp e <= milliseconds 3500)
    (match fst (TestTimer.advance 5 (Some (milliseconds 3500))
                                  (fresh_timer None)) with
     | Returns events => events
     | _ => []
     end).
Proof.
  assert (Hv : valid (TestTimer.base (fresh_timer None))).
  { apply fresh_timer_valid. discriminate. }
  split; [exact Hv|].
  exact (proj1 (X3_advance_events_named_and_sorted (fresh_timer None) _
                  (milliseconds 3500) 5 _ Hv eq_refl)).
Defined.

(** X4: on a live timer with a stop time, every event [advance] returns
    but the last is stamped strictly before the stop time; the timer is
    left expired exactly when the last event is stamped at or after the
    stop time (and left live when no event is returned); and when
    [next_time] was less than one interval past the stop time, so is the
    last event. *)
Theorem X4_advance_and_stop_time (self self' : TestTimer.t)
    (to_time stop : datetime) (fuel : nat) (events : list TimeEvent.t) :
  valid (TestTimer.base self) ->
  TestTimer.expired self = false ->
  Timer.stop_time (TestTimer.base self) = Some stop ->
  TestTimer.advance fuel (Some to_time) self = (Returns events, self') ->
  (events = [] -> TestTimer.expired self' = false) /\
  (forall front last,
     events = (front ++ [last])%list ->
     Forall (fun e => TimeEvent.timestamp e < stop) front /\
     (TestTimer.expired self' = true <-> stop <= TimeEvent.timestamp last) /\
     (TestTimer.next_time self
      < stop + Timer.interval (TestTimer.base self) ->
      TimeEvent.timestamp last
      < stop + Timer.interval (TestTimer.base self))).
Proof.
  intros (Hname & Hpos & _) Hlive Hstop Hrun.
  apply advance_sound in Hrun; [|exact Hname].
  assert (Hiff := advances_expired_iff _ _ _ _ Hrun Hlive).
  assert (Hbefore := advances_before_stop _ _ _ _ Hrun stop).
  assert (Hnth := advances_nth _ _ _ _ Hrun).
  split.
  - intros ->. destruct (TestTimer.expired self') eqn:E; [|reflexivity].
    destruct (proj1 Hiff eq_refl) as (s & j & _ & Hlen & _). discriminate.
  - intros front last ->.
    assert (Hlast : TimeEvent.timestamp last = fire_point self (length front)).
    { apply Hnth. rewrite nth_error_app2, Nat.sub_diag by lia. reflexivity. }
    assert (Hfront : Forall (fun e => TimeEvent.timestamp e < stop) front).
    { apply Forall_forall. intros e He.
      apply In_nth_error in He as [i Hi].
      assert (Hlt : (i < length front)%nat).
      { apply nth_error_Some. congruence. }
      rewrite (Hnth i e).
      - apply Hbefore; [exact Hstop|]. rewrite length_app. simpl. lia.
      - rewrite nth_error_app1 by exact Hlt. exact Hi. }
    split; [exact Hfront | split].
    + rewrite Hiff, Hlast. rewrite length_app. cbn [length].
      split.
      * intros (s & j & Hs & Hlen & Hge).
        assert (s = stop) by congruence. subst s.
        replace (length front) with j by lia. exact Hge.
      * intros Hge. exists stop, (length front).
        split; [exact Hstop | split; [lia | exact Hge]].
    + intros Hnear. rewrite Hlast.
      destruct (length front) as [|m] eqn:Hm.
      * unfold fire_point. lia.
      * assert (fire_point self m < stop).
        { apply Hbefore; [exact Hstop|]. rewrite length_app. simpl. lia. }
        unfold fire_point in *. lia.
Qed.

Lemma X4_advance_and_stop_time_witness :
  valid (TestTimer.base (fresh_timer (Some (milliseconds 2500)))) /\
  exists front last self',
    TestTimer.advance 5 (Some (seconds 10))
                      (fresh_timer (Some (milliseconds 2500)))
    = (Returns (front ++ [last])%list, self') /\
    Forall (fun e => TimeEvent.timestamp e < milliseconds 2500) front /\
    TimeEvent.timestamp last < milliseconds 2500 + seconds 1.
Proof.
  split; [exact fresh_stop_valid|].
  exists [TimeEvent.mk "TEST_TIMER" 0%nat (seconds 1);
          TimeEvent.mk "TEST_TIMER" 1%nat (seconds 2)],
         (TimeEvent.mk "TEST_TIMER" 2%nat (seconds 3)).
  eexists. split; [reflexivity|].
  destruct (proj2 (X4_advance_and_stop_time
                     (fresh_timer (Some (milliseconds 2500))) _
                     (seconds 10) (milliseconds 2500) 5 _
                     fresh_stop_valid eq_refl eq_refl eq_refl)
                  [TimeEvent.mk "TEST_TIMER" 0%nat (seconds 1);
                   TimeEvent.mk "TEST_TIMER" 1%nat (seconds 2)]
                  (TimeEvent.mk "TEST_TIMER" 2%nat (seconds 3)) eq_refl)
    as (Hfront & _ & Hlast).
  split; [exact Hfront|]. apply Hlast. vm_compute. reflexivity.
Defined.


(** With a stop time on the timer's grid that is at least one interval
    short of [datetime.max], the loop returns for every [to_time]. *)
Lemma advances_total_on_grid (to_time stop : datetime) (self : TestTimer.t) :
  0 < Timer.interval (TestTimer.base self) ->
  datetime_min <= TestTimer.next_time self ->
  Timer.stop_time (TestTimer.base self) = Some stop ->
  stop + Timer.interval (TestTimer.base self) <= datetime_max ->
  (TestTimer.expired self = false ->
   exists k : nat,
     stop = TestTimer.next_time self
            + Z.of_nat k * Timer.interval (TestTimer.base self)) ->
  exists events self', advances to_time self events self'.
Proof.
  remember (Z.to_nat (to_time - TestTimer.next_time self + 1)) as n eqn:Hn.
  revert self Hn.
  induction n as [n IH] using lt_wf_ind.
  intros self Hn Hpos Hmin Hstop Hmax Hgrid.
  destruct (loop_guard_cases to_time self) as [(_ & He & Hle) | (_ & Hexit)].
  - destruct (Hgrid He) as [k Hk].
    destruct (IH (Z.to_nat (to_time - TestTimer.next_time (snd (fire self))
                            + 1))) with (self := snd (fire self))
      as (events & self' & Hrun).
    + rewrite fire_next_time. lia.
    + reflexivity.
    + exact Hpos.
    + rewrite fire_next_time. lia.
    + rewrite fire_stop_time. exact Hstop.
    + rewrite fire_interval. exact Hmax.
    + rewrite fire_expired, fire_next_time, fire_interval, He.
      unfold stop_reached. rewrite Hstop.
      destruct (Z.geb_spec (TestTimer.next_time self) stop) as [Hge | Hlt];
        [discriminate|]. intros _.
      destruct k as [|k]; [lia|]. exists k. lia.
    + exists (fst (fire self) :: events), self'.
      constructor; try assumption.
      apply in_datetime_range_true. unfold is_datetime.
      unfold TestTimer.next_time in *. nia.
  - exists [], self. constructor. exact Hexit.
Qed.

(** X5: on a live timer whose stop time is one of its fire points, not
    within one interval of [datetime.max], [advance] returns for every
    [to_time], and no event it returns is stamped after the stop time;
    advancing to the stop time or beyond returns the events up to and
    including the one at the stop time and leaves the timer expired;
    advancing to an earlier time leaves it live. *)
Theorem X5_stop_on_a_fire_point (self : TestTimer.t) (to_time : datetime)
    (j : nat) :
  valid (TestTimer.base self) ->
  TestTimer.expired self = false ->
  Timer.stop_time (TestTimer.base self) = Some (fire_point self j) ->
  datetime_min <= TestTimer.next_time self ->
  fire_point self j + Timer.interval (TestTimer.base self) <= datetime_max ->
  exists events self',
    (forall fuel, (length events <= fuel)%nat ->
       TestTimer.advance fuel (Some to_time) self = (Returns events, self')) /\
    Forall (fun e => TimeEvent.timestamp e <= fire_point self j) events /\
    (fire_point self j <= to_time ->
     length events = S j /\ TestTimer.expired self' = true) /\
    (to_time < fire_point self j -> TestTimer.expired self' = false).
Proof.
  intros (Hname & Hpos & _) Hlive Hstop Hmin Hmax.
  destruct (advances_total_on_grid to_time (fire_point self j) self
              Hpos Hmin Hstop Hmax) as (events & self' & Hrun).
  { intros _. exists j. reflexivity. }
  exists events, self'.
  assert (Hiff := advances_expired_iff _ _ _ _ Hrun Hlive).
  assert (Hbefore := advances_before_stop _ _ _ _ Hrun _ j Hstop).
  assert (Hnth := advances_nth _ _ _ _ Hrun).
  assert (Hlen : (length events <= S j)%nat).
  { destruct (Nat.le_gt_cases (length events) (S j)) as [H | H];
      [exact H|]. apply Hbefore in H. lia. }
  split; [|split; [|split]].
  - intros fuel Hfuel. apply advance_run; assumption.
  - apply Forall_forall. intros e He.
    apply In_nth_error in He as [i Hi].
    assert (Hlt : (i < length events)%nat).
    { apply nth_error_Some. congruence. }
    rewrite (Hnth i e Hi). apply fire_point_mono; [exact Hpos | lia].
  - intros Hdue.
    assert (Hj : (j < length events)%nat).
    { apply (advances_complete _ _ _ _ Hrun Hpos Hlive j Hdue).
      intros stop Hs. rewrite Hstop in Hs. injection Hs as <-. lia. }
    split; [lia|]. apply Hiff. exists (fire_point self j), j.
    split; [exact Hstop | split; [lia | lia]].
  - intros Hearly.
    destruct (TestTimer.expired self') eqn:E; [|reflexivity].
    destruct (proj1 Hiff eq_refl) as (s & k & Hs & Hk & Hge).
    rewrite Hstop in Hs. injection Hs as <-.
    assert (Hsound := advances_sound _ _ _ _ Hrun k). lia.
Qed.

Lemma X5_stop_on_a_fire_point_witness :
  valid (TestTimer.base (fresh_timer (Some (seconds 2)))) /\
  exists events self',
    TestTimer.advance 5 (Some (seconds 10)) (fresh_timer (Some (seconds 2)))
    = (Returns events, self') /\
    length events = 2%nat /\ TestTimer.expired self' = true.
Proof.
  assert (Hv : valid (TestTimer.base (fresh_timer (Some (seconds 2))))).
  { apply fresh_timer_valid. intros stop [= <-]. vm_compute. discriminate. }
  split; [exact Hv|].
  destruct (X5_stop_on_a_fire_point (fresh_timer (Some (seconds 2)))
              (seconds 10) 1 Hv eq_refl eq_refl)
    as (events & self' & Hrun & _ & Hat & _).
  - vm_compute. discriminate.
  - vm_compute. discriminate.
  - destruct Hat as [Hlen Hx]; [vm_compute; discriminate|].
    exists events, self'. split; [apply Hrun; lia | split; assumption].
Defined.

(** X6: on a live timer whose [next_time + interval] is a [datetime],
    [pop_next_event()] does what [advance] to the timer's own [next_time]
    does on a timer with the same fields: each returns one event, the two
    with the same name and timestamp (each identifier comes from the
    timer's own source), and the two leave the same [Timer] fields. *)
Theorem X6_pop_next_event_is_advance_to_next_time (self other : TestTimer.t)
    (fuel : nat) :
  valid (TestTimer.base self) ->
  TestTimer.expired self = false ->
  is_datetime (TestTimer.next_time self
               + Timer.interval (TestTimer.base self)) ->
  TestTimer.base other = TestTimer.base self ->
  (1 <= fuel)%nat ->
  exists e self' e' other',
    TestTimer.pop_next_event self = (Returns e, self') /\
    TestTimer.advance fuel (Some (TestTimer.next_time self)) other
    = (Returns [e'], other') /\
    TimeEvent.name e' = TimeEvent.name e /\
    TimeEvent.timestamp e' = TimeEvent.timestamp e /\
    TestTimer.base other' = TestTimer.base self'.
Proof.
  intros (Hname & Hpos & _) Hlive Hr Hb Hfuel.
  apply in_datetime_range_true in Hr.
  exists (fst (fire self)), (snd (fire self)),
         (fst (fire other)), (snd (fire other)).
  split; [|split; [|split; [|split]]].
  - apply pop_next_event_fire; assumption.
  - apply advance_run; [|rewrite Hb; exact Hname | exact Hfuel].
    apply advances_fire.
    + unfold TestTimer.expired in *. rewrite Hb. exact Hlive.
    + unfold TestTimer.next_time. rewrite Hb. lia.
    + rewrite Hb. exact Hr.
    + apply advances_done. right. rewrite fire_next_time.
      unfold TestTimer.next_time. rewrite Hb. lia.
  - cbn. rewrite Hb. reflexivity.
  - cbn. rewrite Hb. reflexivity.
  - rewrite !fire_base, Hb. reflexivity.
Qed.

Lemma X6_pop_next_event_is_advance_to_next_time_witness :
  valid (TestTimer.base (fresh_timer None)) /\
  exists e' other',
    TestTimer.advance 1 (Some (seconds 1)) (fresh_timer None)
    = (Returns [e'], other') /\
    TimeEvent.timestamp e' = seconds 1 /\
    TestTimer.base other'
    = TestTimer.base (snd (TestTimer.pop_next_event (fresh_timer None))).
Proof.
  assert (Hv : valid (TestTimer.base (fresh_timer None))).
  { apply fresh_timer_valid. discriminate. }
  split; [exact Hv|].
  destruct (X6_pop_next_event_is_advance_to_next_time
              (fresh_timer None) (fresh_timer None) 1 Hv eq_refl)
    as (e & self' & e' & other' & Hpop & Hadv & _ & Hts & Hbase);
    [vm_compute; split; discriminate | reflexivity | lia |].
  injection Hpop as <- <-.
  exists e', other'. split; [exact Hadv | split; [exact Hts | exact Hbase]].
Defined.

(** X7: no sequence of calls changes a timer's name, callback, interval,
    start time or stop time, whatever the calls return. *)
Theorem X7_calls_keep_the_schedule (self : TestTimer.t) (fuel : nat)
    (calls : list call) :
  let b := TestTimer.base self in
  let b' := TestTimer.base (snd (run fuel calls self)) in
  Timer.name b' = Timer.name b /\
  Timer.callback b' = Timer.callback b /\
  Timer.interval b' = Timer.interval b /\
  Timer.start_time b' = Timer.start_time b /\
  Timer.stop_time b' = Timer.stop_time b.
Proof.
  cbv zeta.
  set (same := fun s : TestTimer.t =>
    Timer.name (TestTimer.base s) = Timer.name (TestTimer.base self) /\
    Timer.callback (TestTimer.base s) = Timer.callback (TestTimer.base self) /\
    Timer.interval (TestTimer.base s) = Timer.interval (TestTimer.base self) /\
    Timer.start_time (TestTimer.base s)
    = Timer.start_time (TestTimer.base self) /\
    Timer.stop_time (TestTimer.base s) = Timer.stop_time (TestTimer.base self)).
  assert (Hstep : forall c s, same s -> same (snd (invoke fuel c s))).
  { intros c s. apply (invoke_preserves same).
    - intros s0 H. exact H.
    - intros s0 now H. cbn [TestTimer.base].
      destruct (iterate_next_time_cases (TestTimer.base s0) now)
        as [[_ ->] | [_ ->]]; exact H.
    - intros s0 H. exact H. }
  apply (run_preserves same fuel Hstep calls self). repeat split.
Qed.

(** X8: the comparisons of [TimeEventHandler] order handlers as a priority
    queue needs: of [<], [==] and [>] exactly one holds; [<] and [<=] are
    transitive; [<=] is [<] or [==], [>=] is the negation of [<], [!=] the
    negation of [==], and [>] is [<] with the handlers swapped. *)
Theorem X8_handler_order_laws (h1 h2 h3 : TimeEventHandler.t) :
  (TimeEventHandler.__lt__ h1 h2 = true /\
   TimeEventHandler.__eq__ h1 h2 = false /\
   TimeEventHandler.__gt__ h1 h2 = false \/
   TimeEventHandler.__lt__ h1 h2 = false /\
   TimeEventHandler.__eq__ h1 h2 = true /\
   TimeEventHandler.__gt__ h1 h2 = false \/
   TimeEventHandler.__lt__ h1 h2 = false /\
   TimeEventHandler.__eq__ h1 h2 = false /\
   TimeEventHandler.__gt__ h1 h2 = true) /\
  (TimeEventHandler.__lt__ h1 h2 = true ->
   TimeEventHandler.__lt__ h2 h3 = true ->
   TimeEventHandler.__lt__ h1 h3 = true) /\
  (TimeEventHandler.__le__ h1 h2 = true ->
   TimeEventHandler.__le__ h2 h3 = true ->
   TimeEventHandler.__le__ h1 h3 = true) /\
  TimeEventHandler.__le__ h1 h2
  = TimeEventHandler.__lt__ h1 h2 || TimeEventHandler.__eq__ h1 h2 /\
  TimeEventHandler.__ge__ h1 h2 = negb (TimeEventHandler.__lt__ h1 h2) /\
  TimeEventHandler.__ne__ h1 h2 = negb (TimeEventHandler.__eq__ h1 h2) /\
  TimeEventHandler.__gt__ h1 h2 = TimeEventHandler.__lt__ h2 h1.
Proof.
  unfold TimeEventHandler.__lt__, TimeEventHandler.__eq__,
    TimeEventHandler.__ne__, TimeEventHandler.__le__,
    TimeEventHandler.__gt__, TimeEventHandler.__ge__.
  set (t1 := TimeEvent.timestamp (TimeEventHandler.event h1)).
  set (t2 := TimeEvent.timestamp (TimeEventHandler.event h2)).
  set (t3 := TimeEvent.timestamp (TimeEventHandler.event h3)).
  rewrite Z.gtb_ltb, Z.geb_leb.
  destruct (Z.ltb_spec t1 t2), (Z.eqb_spec t1 t2), (Z.ltb_spec t2 t1),
    (Z.leb_spec t1 t2), (Z.leb_spec t2 t1); try lia;
    (split; [tauto|]); (split; [intros _ H; apply Z.ltb_lt in H;
                                 try apply Z.ltb_lt; try lia|]);
    (split; [intros _ H; apply Z.leb_le in H; try apply Z.leb_le;
             try lia|]); repeat split; try discriminate.
Qed.

(* ------------------------------------------------------------------ *)
(** ** [pad_string] *)

Lemma str_length_app (s1 s2 : string) :
  String.length (s1 ++ s2) = (String.length s1 + String.length s2)%nat.
Proof. induction s1 as [|a s1 IH]; simpl; [reflexivity | now rewrite IH]. Qed.

Lemma str_repeat_length (n : nat) (s : string) :
  String.length (str_repeat n s) = (n * String.length s)%nat.
Proof.
  induction n as [|n IH]; simpl; [reflexivity|].
  rewrite str_length_app, IH. reflexivity.
Qed.

Lemma str_repeat_char (n : nat) (c : ascii) :
  all_chars c (str_repeat n (String c "")).
Proof. induction n as [|n IH]; simpl; auto. Qed.

Lemma str_repeat_empty (n : nat) : str_repeat n "" = "".
Proof. induction n as [|n IH]; simpl; auto. Qed.

Lemma str_mul_nonpositive (n : Z) (s : string) : n <= 0 -> str_mul n s = "".
Proof.
  intros H. unfold str_mul. replace (Z.to_nat n) with 0%nat by lia.
  reflexivity.
Qed.

Lemma c_int_in (n : Z) : - 2 ^ 31 <= n < 2 ^ 31 -> c_int n = Returns n.
Proof.
  intros H. unfold c_int.
  destruct (Z.leb_spec (- 2 ^ 31) n), (Z.ltb_spec n (2 ^ 31));
    try reflexivity; lia.
Qed.

Lemma c_int_out (n : Z) :
  ~ - 2 ^ 31 <= n < 2 ^ 31 ->
  c_int n = Raises (OverflowError "value too large to convert to int").
Proof.
  intros H. unfold c_int.
  destruct (Z.leb_spec (- 2 ^ 31) n), (Z.ltb_spec n (2 ^ 31));
    try reflexivity; lia.
Qed.

Lemma pad_string_returns (str pad : string) (final_length : Z) :
  0 <= final_length < 2 ^ 31 ->
  pad_string (Some str) final_length (Some pad)
  = Returns (str_mul (final_length - Z.of_nat (String.length str)) pad
             ++ str).
Proof.
  intros H. unfold pad_string, Condition.not_negative_int.
  rewrite c_int_in by lia.
  cbn [Condition.not_none obind].
  destruct (Z.ltb_spec final_length 0); [lia | reflexivity].
Qed.

Lemma pad_string_returned (str pad padded : string) (final_length : Z) :
  pad_string (Some str) final_length (Some pad) = Returns padded ->
  0 <= final_length < 2 ^ 31.
Proof.
  unfold pad_string, Condition.not_negative_int, c_int.
  destruct (Z.leb_spec (- 2 ^ 31) final_length),
    (Z.ltb_spec final_length (2 ^ 31)); cbn [andb obind]; try discriminate.
  cbn [Condition.not_none obind].
  destruct (Z.ltb_spec final_length 0); [discriminate | lia].
Qed.

(** X9: [pad_string] raises when [final_length] is negative or does not
    fit a C [int], whatever the strings; with [0 <= final_length < 2^31]
    and a [pad] of one character it returns a string of length
    [max(final_length, len(string))]. *)
Theorem X9_pad_string_length (str : string) (final_length : Z) (c : ascii) :
  (final_length < 0 \/ 2 ^ 31 <= final_length ->
   forall pad, exists e, pad_string (Some str) final_length pad = Raises e) /\
  (0 <= final_length < 2 ^ 31 ->
   exists padded,
     pad_string (Some str) final_length (Some (String c "")) = Returns padded /\
     Z.of_nat (String.length padded)
     = Z.max final_length (Z.of_nat (String.length str))).
Proof.
  split.
  - intros Hbad pad. unfold pad_string, Condition.not_negative_int.
    destruct (Z_lt_le_dec final_length (- 2 ^ 31)) as [Hlow | Hlow];
      [rewrite c_int_out by lia; cbn [obind]; eauto|].
    destruct (Z_lt_le_dec final_length (2 ^ 31)) as [Hhigh | Hhigh];
      [|rewrite c_int_out by lia; cbn [obind]; eauto].
    rewrite c_int_in by lia.
    cbn [Condition.not_none obind].
    destruct (Z.ltb_spec final_length 0); [|lia].
    cbn [obind]. eauto.
  - intros Hpos. eexists. split; [apply pad_string_returns; exact Hpos|].
    rewrite str_length_app. unfold str_mul. rewrite str_repeat_length.
    cbn [String.length]. lia.
Qed.

Lemma X9_pad_string_length_witness :
  (exists e, pad_string (Some "1") (-1) (Some "0") = Raises e) /\
  exists padded,
    pad_string (Some "1") 3 (Some "0") = Returns padded /\
    Z.of_nat (String.length padded) = 3.
Proof.
  split.
  - apply (proj1 (X9_pad_string_length "1" (-1) "0"%char)). lia.
  - destruct (proj2 (X9_pad_string_length "1" 3 "0"%char))
      as (padded & Hp & Hl); [lia|].
    exists padded. split; [exact Hp | exact Hl].
Defined.

(** X10: [pad_string] never cuts or changes the string it is given: for
    [0 <= final_length < 2^31] the result is the string with copies of
    [pad] put in front of it, made of the pad character only when [pad] is
    one character; a string that is already [final_length] long or longer
    comes back as it is. *)
Theorem X10_pad_string_keeps_the_string (str pad : string)
    (final_length : Z) :
  0 <= final_length < 2 ^ 31 ->
  exists padding,
    pad_string (Some str) final_length (Some pad)
    = Returns (padding ++ str) /\
    (exists n : nat, padding = str_repeat n pad) /\
    (forall c, pad = String c "" -> all_chars c padding) /\
    (final_length <= Z.of_nat (String.length str) -> padding = "").
Proof.
  intros Hpos.
  exists (str_mul (final_length - Z.of_nat (String.length str)) pad).
  split; [apply pad_string_returns; exact Hpos | split; [|split]].
  - eexists. reflexivity.
  - intros c ->. apply str_repeat_char.
  - intros Hlong. apply str_mul_nonpositive. lia.
Qed.

Lemma X10_pad_string_keeps_the_string_witness :
  pad_string (Some "12345") 3 (Some " ") = Returns "12345" /\
  pad_string (Some "1") 3 (Some "0") = Returns "001".
Proof.
  split.
  - destruct (X10_pad_string_keeps_the_string "12345" " " 3)
      as (padding & Hp & _ & _ & Hlong); [lia|].
    rewrite Hp, Hlong; [reflexivity | vm_compute; discriminate].
  - reflexivity.
Defined.

(** X11: padding is idempotent: padding the result of [pad_string] again,
    to the same length and with the same [pad], gives it back. *)
Theorem X11_pad_string_idempotent (str pad padded : string)
    (final_length : Z) :
  pad_string (Some str) final_length (Some pad) = Returns padded ->
  pad_string (Some padded) final_length (Some pad) = Returns padded.
Proof.
  intros Hp.
  assert (Hpos := pad_string_returned _ _ _ _ Hp).
  rewrite (pad_string_returns _ _ _ Hpos) in Hp. injection Hp as <-.
  rewrite (pad_string_returns _ _ _ Hpos).
  destruct pad as [|a pad].
  - unfold str_mul. rewrite !str_repeat_empty. reflexivity.
  - rewrite str_mul_nonpositive at 1; [reflexivity|].
    rewrite str_length_app. unfold str_mul. rewrite str_repeat_length.
    cbn [String.length]. nia.
Qed.

Lemma X11_pad_string_idempotent_witness :
  pad_string (Some "7") 4 (Some "0") = Returns "0007" /\
  pad_string (Some "0007") 4 (Some "0") = Returns "0007".
Proof.
  assert (H : pad_string (Some "7") 4 (Some "0") = Returns "0007")
    by reflexivity.
  split; [exact H|].
  exact (X11_pad_string_idempotent "7" "0" "0007" 4 H).
Defined.

(* ------------------------------------------------------------------ *)
(** ** The Bitmex order request *)

Ltac order_cases order :=
  destruct order as [id [] [] [] [] [] price].

Ltac distinct_keys :=
  repeat constructor; cbn; intuition discriminate.

(** X12: [build] raises for a [GTD] order and for no other; the request it
    returns for any other order holds each key once and carries the order's
    client order id under ["clOrdID"], as its first item. *)
Theorem X12_build_rejects_only_gtd (order : Order.t) :
  (Order.time_in_force order = TimeInForce.GTD ->
   BitmexOrderRequestBuilder.build (Some order)
   = Raises (ValueError "GTD not supported in this version.")) /\
  (Order.time_in_force order <> TimeInForce.GTD ->
   exists rest,
     BitmexOrderRequestBuilder.build (Some order)
     = Returns (("clOrdID", PyStr (Order.cl_ord_id order)) :: rest) /\
     NoDup (dict_keys (("clOrdID", PyStr (Order.cl_ord_id order)) :: rest))).
Proof.
  split.
  - intros H. unfold BitmexOrderRequestBuilder.build.
    cbn [Condition.not_none obind]. rewrite H. reflexivity.
  - intros H. order_cases order; cbn in H; try congruence;
      (eexists; split; [reflexivity | distinct_keys]).
Qed.

Lemma X12_build_rejects_only_gtd_witness :
  exists rest,
    BitmexOrderRequestBuilder.build
      (Some (Order.mk "O-1" OrderType.LIMIT TimeInForce.GTC
                      true false true "100.5"))
    = Returns (("clOrdID", PyStr "O-1") :: rest).
Proof.
  destruct (proj2 (X12_build_rejects_only_gtd
                     (Order.mk "O-1" OrderType.LIMIT TimeInForce.GTC
                               true false true "100.5")))
    as (rest & H & _); [discriminate|].
  exists rest. exact H.
Defined.

(** X13: the execution instructions of a request.  ["execInst"] is
    ["ParticipateDoNotInitiate"] for a post-only [LIMIT] order, with
    [",ReduceOnly"] appended when the order is also reduce-only;
    ["ReduceOnly"] for a reduce-only [LIMIT] order that is not post-only and
    for a reduce-only [STOP_MARKET] order; and absent otherwise, so a
    [MARKET] order never carries one.  ["displayQty"] is [0] exactly for a
    hidden [LIMIT] order that is not post-only, and absent otherwise. *)
Theorem X13_build_execution_instructions (order : Order.t) :
  Order.time_in_force order <> TimeInForce.GTD ->
  dict_get "execInst" (request_of order)
  = match Order.type order, Order.is_post_only order,
          Order.is_reduce_only order with
    | OrderType.LIMIT, true, true =>
        Some (PyStr "ParticipateDoNotInitiate,ReduceOnly")
    | OrderType.LIMIT, true, false => Some (PyStr "ParticipateDoNotInitiate")
    | OrderType.LIMIT, false, true => Some (PyStr "ReduceOnly")
    | OrderType.STOP_MARKET, _, true => Some (PyStr "ReduceOnly")
    | _, _, _ => None
    end /\
  dict_get "displayQty" (request_of order)
  = match Order.type order, Order.is_hidden order,
          Order.is_post_only order with
    | OrderType.LIMIT, true, false => Some (PyInt 0)
    | _, _, _ => None
    end.
Proof.
  intros H. order_cases order; cbn in H; try congruence; split; reflexivity.
Qed.

Lemma X13_build_execution_instructions_witness :
  dict_get "execInst"
    (request_of (Order.mk "O-1" OrderType.MARKET TimeInForce.IOC
                          false false true "0"))
  = None /\
  dict_get "displayQty"
    (request_of (Order.mk "O-2" OrderType.LIMIT TimeInForce.GTC
                          true true false "100.5"))
  = None.
Proof.
  split.
  - refine (proj1 (X13_build_execution_instructions
                     (Order.mk "O-1" OrderType.MARKET TimeInForce.IOC
                               false false true "0") _)).
    discriminate.
  - refine (proj2 (X13_build_execution_instructions
                     (Order.mk "O-2" OrderType.LIMIT TimeInForce.GTC
                               true true false "100.5") _)).
    discriminate.
Defined.

(** X14: the order type, stop price and time in force of a request.
    ["type"] is ["Market"], ["Limit"] or ["StopMarket"] by the order's
    type, and absent for any other type; ["stopPx"] is the text of the
    order's price for a [STOP_MARKET] order and absent otherwise;
    ["timeInForce"] is ["Day"], ["GoodTillCancel"], ["ImmediateOrCancel"]
    or ["FillOrKill"] by the order's time in force, and absent for any
    other. *)
Theorem X14_build_type_and_time_in_force (order : Order.t) :
  Order.time_in_force order <> TimeInForce.GTD ->
  dict_get "type" (request_of order)
  = match Order.type order with
    | OrderType.MARKET => Some (PyStr "Market")
    | OrderType.LIMIT => Some (PyStr "Limit")
    | OrderType.STOP_MARKET => Some (PyStr "StopMarket")
    | OrderType.UNDEFINED => None
    end /\
  dict_get "stopPx" (request_of order)
  = match Order.type order with
    | OrderType.STOP_MARKET => Some (PyStr (Order.price order))
    | _ => None
    end /\
  dict_get "timeInForce" (request_of order)
  = match Order.time_in_force order with
    | TimeInForce.DAY => Some (PyStr "Day")
    | TimeInForce.GTC => Some (PyStr "GoodTillCancel")
    | TimeInForce.IOC => Some (PyStr "ImmediateOrCancel")
    | TimeInForce.FOK => Some (PyStr "FillOrKill")
    | _ => None
    end.
Proof.
  intros H. order_cases order; cbn in H; try congruence;
    repeat split; reflexivity.
Qed.

Lemma X14_build_type_and_time_in_force_witness :
  dict_get "stopPx"
    (request_of (Order.mk "O-3" OrderType.STOP_MARKET TimeInForce.DAY
                          false false false "9500.0"))
  = Some (PyStr "9500.0").
Proof.
  refine (proj1 (proj2 (X14_build_type_and_time_in_force
                          (Order.mk "O-3" OrderType.STOP_MARKET
                                    TimeInForce.DAY false false false
                                    "9500.0") _))).
  discriminate.
Defined.

(* ------------------------------------------------------------------ *)
(** ** Time frames and trade sides *)

Lemma str_of_int_inj (n m : Z) : str_of_int n = str_of_int m -> n = m.
Proof.
  unfold str_of_int. intros H. apply DecimalZ.to_int_inj.
  assert (Hn := NilEmpty.isi (Z.to_int n)). rewrite H in Hn.
  rewrite NilEmpty.isi in Hn. congruence.
Qed.

Lemma str_snoc_inj (s1 s2 : string) (c1 c2 : ascii) :
  s1 ++ String c1 "" = s2 ++ String c2 "" -> s1 = s2 /\ c1 = c2.
Proof.
  revert s2. induction s1 as [|a s1 IH]; intros [|b s2]; cbn.
  - intros [= ->]. auto.
  - intros [= _ H]. destruct s2; discriminate.
  - intros [= _ H]. destruct s1; discriminate.
  - intros [= -> H]. apply IH in H as [-> ->]. auto.
Qed.

(** X15: [_make_timeframe] has a time frame exactly for the [MINUTE],
    [HOUR] and [DAY] aggregations ([None] for any other); the time frame is
    the step in decimal digits followed by [m], [h] or [d]; and two
    specifications that get the same time frame have the same step and the
    same aggregation. *)
Theorem X15_make_timeframe (spec1 spec2 : BarSpecification.t) :
  (CCXTDataClient._make_timeframe spec1 = None <->
   BarSpecification.aggregation spec1 = BarAggregation.OTHER) /\
  (forall timeframe,
     CCXTDataClient._make_timeframe spec1 = Some timeframe ->
     exists unit,
       timeframe
       = str_of_int (BarSpecification.step spec1) ++ String unit "" /\
       (unit = "m" \/ unit = "h" \/ unit = "d")%char) /\
  (forall timeframe,
     CCXTDataClient._make_timeframe spec1 = Some timeframe ->
     CCXTDataClient._make_timeframe spec2 = Some timeframe ->
     spec1 = spec2).
Proof.
  destruct spec1 as [step1 agg1], spec2 as [step2 agg2].
  unfold CCXTDataClient._make_timeframe. cbn.
  split; [|split].
  - destruct agg1; split; congruence.
  - intros timeframe. destruct agg1; intros [= <-]; eauto.
  - intros timeframe H1 H2.
    destruct agg1, agg2; try discriminate;
      injection H1 as <-; injection H2 as H2;
      apply str_snoc_inj in H2 as [Hs Hc]; try discriminate;
      apply str_of_int_inj in Hs; subst; reflexivity.
Qed.

Lemma X15_make_timeframe_witness :
  CCXTDataClient._make_timeframe
    (BarSpecification.mk 15 BarAggregation.MINUTE) = Some "15m" /\
  forall spec2,
    CCXTDataClient._make_timeframe spec2 = Some "15m" ->
    BarSpecification.mk 15 BarAggregation.MINUTE = spec2.
Proof.
  split; [reflexivity|].
  intros spec2.
  exact (proj2 (proj2 (X15_make_timeframe
                         (BarSpecification.mk 15 BarAggregation.MINUTE)
                         spec2)) "15m" eq_refl).
Defined.

(** X16: the side [_on_trade_tick] gives a trade.  A trade whose liquidity
    side is ["maker"] is given the side [BUY] whatever its order side (and
    whatever the comparison of the order side with [OrderSide.SELL]
    yields), so a maker ["sell"] is reported as a buy; any other trade is
    given the side [_parse_trade_tick] gives it: [BUY] for ["buy"], [SELL]
    for anything else. *)
Theorem X16_trade_tick_side (str_eq_enum : string -> OrderSide.t -> bool)
    (order_side liquidity_side : string) :
  (liquidity_side = "maker" ->
   CCXTDataClient._on_trade_tick_side str_eq_enum order_side liquidity_side
   = OrderSide.BUY) /\
  (liquidity_side <> "maker" ->
   CCXTDataClient._on_trade_tick_side str_eq_enum order_side liquidity_side
   = CCXTDataClient._parse_trade_tick_side order_side) /\
  (CCXTDataClient._parse_trade_tick_side order_side = OrderSide.BUY <->
   order_side = "buy").
Proof.
  unfold CCXTDataClient._on_trade_tick_side,
    CCXTDataClient._parse_trade_tick_side.
  split; [|split].
  - intros ->. cbn. destruct (str_eq_enum order_side OrderSide.SELL);
      reflexivity.
  - intros H. destruct (String.eqb_spec liquidity_side "maker");
      [contradiction | reflexivity].
  - destruct (String.eqb_spec order_side "buy"); split;
      congruence || discriminate.
Qed.

Lemma X16_trade_tick_side_witness :
  CCXTDataClient._on_trade_tick_side (fun _ _ => false) "sell" "maker"
  = OrderSide.BUY /\
  CCXTDataClient._on_trade_tick_side (fun _ _ => false) "sell" "taker"
  = OrderSide.SELL.
Proof.
  split.
  - exact (proj1 (X16_trade_tick_side (fun _ _ => false) "sell" "maker")
                 eq_refl).
  - rewrite (proj1 (proj2 (X16_trade_tick_side (fun _ _ => false)
                                               "sell" "taker")));
      [reflexivity | discriminate].
Defined.
